(** * Client-side sensor session: [AbstractSensorChannelInterface]

    A shallow embedding of [qt-api/abstractsensor_i.cpp] (sensorfw).

    The class couples a D-Bus proxy (control channel) with a [SocketReader]
    (data channel).  Its own state is the private [pimpl_] structure; every
    member function is embedded as a computation over that structure, the
    state of the outside world (the sensor daemon behind the bus and the
    socket) and a trace of the interactions issued so far.

    What belongs to Qt or to headers that are not part of this file of the
    repository (the marshalling of replies, [qvariant_cast], the socket, the
    [operator==] of [DataRange], the numeric value of [SClientSocketError]) is
    taken as a parameter: the results hold for every behaviour of those. *)

From Stdlib Require Import ZArith List String Bool Lia.
Import ListNotations.

Local Open Scope string_scope.
Local Open Scope list_scope.
Local Open Scope Z_scope.

(** ** Error vocabulary

    [SensorError] is a C++ enumeration, hence an integer; [errorCode()]
    produces one with a [static_cast] from [int].  [SNoError] is the value the
    code compares against. *)

Definition SensorError : Type := Z.
Definition SNoError : SensorError := 0.

(** ** Values exchanged with Qt *)

Section Values.

Variable DataRange : Type.

(** The [QVariant]s this interface builds with [qVariantFromValue] or
    receives from [internalPropGet]. *)
Inductive QVariant : Type :=
| QInvalid
| QInt (v : Z)
| QUInt (v : Z)
| QBool (b : bool)
| QString (s : string)
| QDataRange (r : DataRange).

(** [QDBusError]: [None] is the default-constructed, invalid error object
    (no error); [Some (name, message)] a D-Bus error. *)
Definition QDBusError : Type := option (string * string).

Record QDBusReply (T : Type) : Type := mkReply {
  m_error : QDBusError;
  m_data : T
}.

(** The interactions with the outside, in the order they are issued.
    The assignments to [running_] are recorded as well, so that their
    position relative to the remote calls can be stated. *)
Inductive Event : Type :=
| EvCall (method : string) (args : list QVariant)
| EvPropGet (name : string)
| EvConnect
| EvDisconnect
| EvInitiateConnection (sessionId : Z)
| EvDataReceivedImpl
| EvRunning (b : bool).

End Values.

Arguments QInvalid {DataRange}.
Arguments QInt {DataRange} v.
Arguments QUInt {DataRange} v.
Arguments QBool {DataRange} b.
Arguments QString {DataRange} s.
Arguments QDataRange {DataRange} r.
Arguments mkReply {T} m_error m_data.
Arguments m_error {T} q.
Arguments m_data {T} q.
Arguments EvCall {DataRange} method args.
Arguments EvPropGet {DataRange} name.
Arguments EvConnect {DataRange}.
Arguments EvDisconnect {DataRange}.
Arguments EvInitiateConnection {DataRange} sessionId.
Arguments EvDataReceivedImpl {DataRange}.
Arguments EvRunning {DataRange} b.

(** [QDBusReply<T>::isValid()]: the reply carries no error. *)
Definition isValid {T : Type} (r : QDBusReply T) : bool :=
  match m_error r with
  | None => true
  | Some _ => false
  end.

(** [QDBusReply<void>()], the reply returned without any remote call. *)
Definition QDBusReply_default : QDBusReply unit := mkReply None tt.

(** [QDBusReply<T>::value()]. *)
Definition value {T : Type} (r : QDBusReply T) : T := m_data r.

(** ** The collaborators, as interfaces *)

(** The control channel: [QDBusAbstractInterface] and the conversions Qt
    applies to what comes back. *)
Class QtDBus (DataRange W : Type) : Type := {
  QDBusMessage : Type;
  (** [callWithArgumentList(QDBus::Block, method, args)] and [call(QDBus::Block, method, args...)] *)
  callWithArgumentList : string -> list (QVariant DataRange) -> W -> QDBusMessage * W;
  internalPropGet : string -> W -> QVariant DataRange * W;
  (** construction of [QDBusReply<T>] from a [QDBusMessage] *)
  QDBusReply_void : QDBusMessage -> QDBusReply unit;
  QDBusReply_bool : QDBusMessage -> QDBusReply bool;
  QDBusReply_DataRangeList : QDBusMessage -> QDBusReply (list DataRange);
  QDBusReply_DataRange : QDBusMessage -> QDBusReply DataRange;
  (** [qvariant_cast<T>] *)
  qvariant_cast_int : QVariant DataRange -> Z;
  qvariant_cast_uint : QVariant DataRange -> Z;
  qvariant_cast_bool : QVariant DataRange -> bool;
  qvariant_cast_QString : QVariant DataRange -> string
}.

(** The data channel: [SocketReader] and the [QLocalSocket] it owns. *)
Class SocketReader (W : Type) : Type := {
  initiateConnection : Z -> W -> bool * W;
  bytesAvailable : W -> Z
}.

(** The pure virtual [dataReceivedImpl()] of the sensor-specific subclass:
    it reads from the socket and emits signals, and answers whether a whole
    frame was consumed. *)
Class FrameDecoder (W : Type) : Type := {
  dataReceivedImpl : W -> bool * W
}.

(** ** The private implementation structure *)

Record AbstractSensorChannelInterfaceImpl : Type := mkImpl {
  errorCode_ : SensorError;
  errorString_ : string;
  sessionId_ : Z;
  interval_ : Z;
  bufferInterval_ : Z;
  bufferSize_ : Z;
  running_ : bool;
  standbyOverride_ : bool
}.

Abbreviation Impl := AbstractSensorChannelInterfaceImpl.

(** The member initialisers of the structure's constructor. *)
Definition Impl_new (sessionId : Z) : Impl :=
  {| errorCode_ := SNoError;
     errorString_ := "";
     sessionId_ := sessionId;
     interval_ := 0;
     bufferInterval_ := 0;
     bufferSize_ := 1;
     running_ := false;
     standbyOverride_ := false |}.

Definition set_error (c : SensorError) (m : string) (p : Impl) : Impl :=
  mkImpl c m (sessionId_ p) (interval_ p) (bufferInterval_ p) (bufferSize_ p)
         (running_ p) (standbyOverride_ p).

Definition set_interval (v : Z) (p : Impl) : Impl :=
  mkImpl (errorCode_ p) (errorString_ p) (sessionId_ p) v (bufferInterval_ p)
         (bufferSize_ p) (running_ p) (standbyOverride_ p).

Definition set_bufferInterval (v : Z) (p : Impl) : Impl :=
  mkImpl (errorCode_ p) (errorString_ p) (sessionId_ p) (interval_ p) v
         (bufferSize_ p) (running_ p) (standbyOverride_ p).

Definition set_bufferSize (v : Z) (p : Impl) : Impl :=
  mkImpl (errorCode_ p) (errorString_ p) (sessionId_ p) (interval_ p)
         (bufferInterval_ p) v (running_ p) (standbyOverride_ p).

Definition set_running (b : bool) (p : Impl) : Impl :=
  mkImpl (errorCode_ p) (errorString_ p) (sessionId_ p) (interval_ p)
         (bufferInterval_ p) (bufferSize_ p) b (standbyOverride_ p).

Definition set_standbyOverride (b : bool) (p : Impl) : Impl :=
  mkImpl (errorCode_ p) (errorString_ p) (sessionId_ p) (interval_ p)
         (bufferInterval_ p) (bufferSize_ p) (running_ p) b.

(** What [clearError()] leaves in the structure. *)
Definition cleared (p : Impl) : Impl := set_error SNoError "" p.

(** [QList::at(i)]: the index must be valid; there is no result otherwise
    (the call asserts). *)
Definition at_ {A : Type} (l : list A) (i : Z) : option A :=
  if i <? 0 then None else nth_error l (Z.to_nat i).

(** The remote calls named [m] in a trace, with their arguments. *)
Fixpoint calls_of {D : Type} (m : string) (t : list (Event D)) : list (list (QVariant D)) :=
  match t with
  | [] => []
  | EvCall m' args :: t' =>
      if String.eqb m m' then args :: calls_of m t' else calls_of m t'
  | _ :: t' => calls_of m t'
  end.

(** ** Computations over a session *)

Section Computations.

Context {DataRange W : Type}.

(** An object of the class together with what surrounds it: its private
    structure, the outside world (daemon and socket) and the interactions
    issued so far, oldest first. *)
Record Session : Type := mkSession {
  pimpl_ : Impl;
  world : W;
  trace : list (Event DataRange)
}.

(** A member function returning an [A]: a state transformer on sessions. *)
Definition Computation (A : Type) : Type := Session -> A * Session.

Local Abbreviation M := Computation.

Definition ret {A : Type} (a : A) : M A := fun s => (a, s).

Definition bind {A B : Type} (c : M A) (k : A -> M B) : M B :=
  fun s => let (a, s') := c s in k a s'.

(** The session a computation leaves behind. *)
Definition run {A : Type} (c : M A) (s : Session) : Session := snd (c s).

(** Reading and writing [pimpl_]. *)
Definition pimpl : M Impl := fun s => (pimpl_ s, s).

Definition modify (f : Impl -> Impl) : M unit :=
  fun s => (tt, mkSession (f (pimpl_ s)) (world s) (trace s)).

(** Recording an interaction. *)
Definition emit (e : Event DataRange) : M unit :=
  fun s => (tt, mkSession (pimpl_ s) (world s) (trace s ++ [e])).

(** An operation of a collaborator: it sees and changes the world only. *)
Definition outside {A : Type} (f : W -> A * W) : M A :=
  fun s => (fst (f (world s)),
            mkSession (pimpl_ s) (snd (f (world s))) (trace s)).

End Computations.

Arguments Computation : clear implicits.
Arguments Session : clear implicits.

Notation "x <- c ;; k" := (bind c (fun x => k))
  (at level 61, c at next level, right associativity).
Notation "c ;; k" := (bind c (fun _ => k))
  (at level 61, right associativity).

(** ** The member functions *)

Section Session.

Context {DataRange W : Type}.
Context {Bus : QtDBus DataRange W} {Sock : SocketReader W} {Dec : FrameDecoder W}.

(** [operator==] of [DataRange]. *)
Variable DataRange_eq : DataRange -> DataRange -> bool.

(** The enumerator the constructor records when the socket cannot be opened. *)
Variable SClientSocketError : SensorError.

Local Abbreviation M := (Computation DataRange W).

(** A blocking D-Bus call. *)
Definition call (method : string) (args : list (QVariant DataRange)) : M QDBusMessage :=
  emit (EvCall method args) ;;
  outside (callWithArgumentList method args).

(** A D-Bus property read. *)
Definition propGet (name : string) : M (QVariant DataRange) :=
  emit (EvPropGet name) ;;
  outside (internalPropGet name).

Definition setError (errorCode : SensorError) (errorString : string) : M unit :=
  modify (set_error errorCode errorString).

Definition clearError : M unit :=
  modify (set_error SNoError "").

(** The constructor: the structure is initialised, then the socket opened. *)
Definition AbstractSensorChannelInterface (sessionId : Z) (w : W)
  : Session DataRange W :=
  run (ok <- (emit (EvInitiateConnection sessionId) ;;
              outside (initiateConnection sessionId)) ;;
       if negb ok
       then setError SClientSocketError "Socket connection failed."
       else ret tt)
      (mkSession (Impl_new sessionId) w []).

(** *** Calls that name the session *)

Definition setInterval_sid (sessionId value : Z) : M (QDBusReply unit) :=
  clearError ;;
  msg <- call "setInterval" [QInt sessionId; QInt value] ;;
  ret (QDBusReply_void msg).

Definition setBufferInterval_sid (sessionId value : Z) : M (QDBusReply unit) :=
  clearError ;;
  msg <- call "setBufferInterval" [QInt sessionId; QUInt value] ;;
  ret (QDBusReply_void msg).

Definition setBufferSize_sid (sessionId value : Z) : M (QDBusReply unit) :=
  clearError ;;
  msg <- call "setBufferSize" [QInt sessionId; QUInt value] ;;
  ret (QDBusReply_void msg).

Definition setStandbyOverride_sid (sessionId : Z) (value : bool) : M (QDBusReply bool) :=
  clearError ;;
  msg <- call "setStandbyOverride" [QInt sessionId; QBool value] ;;
  ret (QDBusReply_bool msg).

Definition start_sid (sessionId : Z) : M (QDBusReply unit) :=
  clearError ;;
  p <- pimpl ;;
  if running_ p then ret QDBusReply_default
  else
    modify (set_running true) ;; emit (EvRunning true) ;;
    emit EvConnect ;;
    msg <- call "start" [QInt sessionId] ;;
    let returnValue := QDBusReply_void msg in
    p <- pimpl ;;
    (if standbyOverride_ p
     then setStandbyOverride_sid sessionId true ;; ret tt
     else ret tt) ;;
    p <- pimpl ;;
    setInterval_sid sessionId (interval_ p) ;;
    p <- pimpl ;;
    setBufferInterval_sid sessionId (bufferInterval_ p) ;;
    p <- pimpl ;;
    setBufferSize_sid sessionId (bufferSize_ p) ;;
    ret returnValue.

Definition stop_sid (sessionId : Z) : M (QDBusReply unit) :=
  clearError ;;
  p <- pimpl ;;
  if negb (running_ p) then ret QDBusReply_default
  else
    modify (set_running false) ;; emit (EvRunning false) ;;
    emit EvDisconnect ;;
    setStandbyOverride_sid sessionId false ;;
    setInterval_sid sessionId 0 ;;
    msg <- call "stop" [QInt sessionId] ;;
    ret (QDBusReply_void msg).

Definition start : M (QDBusReply unit) :=
  p <- pimpl ;; start_sid (sessionId_ p).

Definition stop : M (QDBusReply unit) :=
  p <- pimpl ;; stop_sid (sessionId_ p).

(** *** Data ranges *)

Definition getAvailableDataRanges : M (list DataRange) :=
  msg <- call "getAvailableDataRanges" [] ;;
  ret (value (QDBusReply_DataRangeList msg)).

Definition getCurrentDataRange : M DataRange :=
  clearError ;;
  msg <- call "getCurrentDataRange" [] ;;
  ret (value (QDBusReply_DataRange msg)).

Definition requestDataRange (range : DataRange) : M unit :=
  clearError ;;
  p <- pimpl ;;
  call "requestDataRange" [QInt (sessionId_ p); QDataRange range] ;;
  ret tt.

Definition removeDataRangeRequest : M unit :=
  clearError ;;
  p <- pimpl ;;
  call "removeDataRangeRequest" [QInt (sessionId_ p)] ;;
  ret tt.

(** [None]: [ranges.at(dataRangeIndex)] was given an index outside the list. *)
Definition setDataRangeIndex (dataRangeIndex : Z) : M (option bool) :=
  clearError ;;
  p <- pimpl ;;
  call "setDataRangeIndex" [QInt (sessionId_ p); QInt dataRangeIndex] ;;
  ranges <- getAvailableDataRanges ;;
  range <- getCurrentDataRange ;;
  ret (match at_ ranges dataRangeIndex with
       | Some r => Some (DataRange_eq r range)
       | None => None
       end).

(** *** Properties *)

Definition sessionId : M Z :=
  p <- pimpl ;; ret (sessionId_ p).

Definition errorCodeInt : M Z :=
  v <- propGet "errorCodeInt" ;; ret (qvariant_cast_int v).

Definition errorCode : M SensorError :=
  p <- pimpl ;;
  if negb (errorCode_ p =? SNoError) then ret (errorCode_ p)
  else errorCodeInt.

Definition errorString : M string :=
  p <- pimpl ;;
  if negb (errorCode_ p =? SNoError) then ret (errorString_ p)
  else v <- propGet "errorString" ;; ret (qvariant_cast_QString v).

Definition description : M string :=
  v <- propGet "description" ;; ret (qvariant_cast_QString v).

Definition id : M string :=
  v <- propGet "id" ;; ret (qvariant_cast_QString v).

Definition type : M string :=
  v <- propGet "type" ;; ret (qvariant_cast_QString v).

Definition interval : M Z :=
  p <- pimpl ;;
  if running_ p then v <- propGet "interval" ;; ret (qvariant_cast_int v)
  else ret (interval_ p).

Definition setInterval (value : Z) : M unit :=
  modify (set_interval value) ;;
  p <- pimpl ;;
  if running_ p then setInterval_sid (sessionId_ p) value ;; ret tt
  else ret tt.

Definition bufferInterval : M Z :=
  p <- pimpl ;;
  if running_ p then v <- propGet "bufferInterval" ;; ret (qvariant_cast_uint v)
  else ret (bufferInterval_ p).

Definition setBufferInterval (value : Z) : M unit :=
  modify (set_bufferInterval value) ;;
  p <- pimpl ;;
  if negb (running_ p) then setBufferInterval_sid (sessionId_ p) value ;; ret tt
  else ret tt.

Definition bufferSize : M Z :=
  p <- pimpl ;;
  if running_ p then v <- propGet "bufferSize" ;; ret (qvariant_cast_uint v)
  else ret (bufferSize_ p).

Definition setBufferSize (value : Z) : M unit :=
  modify (set_bufferSize value) ;;
  p <- pimpl ;;
  if negb (running_ p) then setBufferSize_sid (sessionId_ p) value ;; ret tt
  else ret tt.

Definition standbyOverride : M bool :=
  p <- pimpl ;;
  if running_ p then v <- propGet "standbyOverride" ;; ret (qvariant_cast_bool v)
  else ret (standbyOverride_ p).

Definition setStandbyOverride (override : bool) : M bool :=
  modify (set_standbyOverride override) ;;
  p <- pimpl ;;
  r <- setStandbyOverride_sid (sessionId_ p) override ;;
  ret (value r).

(** *** The drain loop

    [do { if (!dataReceivedImpl()) return; } while (bytesAvailable());]
    The loop need not end (a decoder may keep answering [true] on a socket
    that never empties), so it is run on fuel: [None] when the fuel is
    spent before the loop returns. *)
Fixpoint dataReceived (fuel : nat) : M (option unit) :=
  match fuel with
  | O => ret None
  | S fuel' =>
      ok <- (emit EvDataReceivedImpl ;; outside dataReceivedImpl) ;;
      if negb ok then ret (Some tt)
      else
        n <- outside (fun w => (bytesAvailable w, w)) ;;
        if negb (n =? 0) then dataReceived fuel'
        else ret (Some tt)
  end.

(** The world after [k] runs of the decoder. *)
Fixpoint decoded (k : nat) (w : W) : W :=
  match k with
  | O => w
  | S k' => decoded k' (snd (dataReceivedImpl w))
  end.

(** The loop condition seen from the world [w] an iteration starts in: the
    decoder consumed a frame and the socket still holds bytes. *)
Definition continues (w : W) : bool :=
  fst (dataReceivedImpl w)
  && negb (bytesAvailable (snd (dataReceivedImpl w)) =? 0).

(** *** Sequences of reads

    The accessors of the class, and what a client does when it calls some of
    them one after the other. *)
Inductive Accessor : Type :=
| AErrorCode | AErrorString | AErrorCodeInt
| ADescription | AId | AType | ASessionId
| AInterval | ABufferInterval | ABufferSize | AStandbyOverride.

Definition read (a : Accessor) : M unit :=
  match a with
  | AErrorCode => errorCode ;; ret tt
  | AErrorString => errorString ;; ret tt
  | AErrorCodeInt => errorCodeInt ;; ret tt
  | ADescription => description ;; ret tt
  | AId => id ;; ret tt
  | AType => type ;; ret tt
  | ASessionId => sessionId ;; ret tt
  | AInterval => interval ;; ret tt
  | ABufferInterval => bufferInterval ;; ret tt
  | ABufferSize => bufferSize ;; ret tt
  | AStandbyOverride => standbyOverride ;; ret tt
  end.

Fixpoint reads (l : list Accessor) : M unit :=
  match l with
  | [] => ret tt
  | a :: l' => read a ;; reads l'
  end.

End Session.

(** ** The rest of the class

    The capability queries, [release()], the destructor, and a client that
    calls member functions one after the other. *)

(** [IntegerRangeList] and the conversion of a reply into one. *)
Class IntegerRanges (DataRange W : Type) {Bus : QtDBus DataRange W} : Type := {
  IntegerRange : Type;
  QDBusReply_IntegerRangeList : QDBusMessage -> QDBusReply (list IntegerRange)
}.

(** What the end of an object's life relies on:
    [QDBusAbstractInterface::isValid()],
    [SensorManagerInterface::instance().releaseInterface(id, sessionId)] and
    [SocketReader::dropConnection()]. *)
Class Lifetime (W : Type) : Type := {
  interface_isValid : W -> bool;
  releaseInterface : string -> Z -> W -> bool * W;
  dropConnection : W -> bool * W
}.

Section Remaining.

Context {DataRange W : Type}.
Context {Bus : QtDBus DataRange W} {Sock : SocketReader W} {Dec : FrameDecoder W}.
Context {Ranges : IntegerRanges DataRange W} {Life : Lifetime W}.

Variable DataRange_eq : DataRange -> DataRange -> bool.
Variable SClientSocketError : SensorError.

Local Abbreviation M := (Computation DataRange W).

Definition getAvailableIntervals : M (list DataRange) :=
  msg <- call "getAvailableIntervals" [] ;;
  ret (value (QDBusReply_DataRangeList msg)).

Definition getAvailableBufferIntervals : M (list IntegerRange) :=
  msg <- call "getAvailableBufferIntervals" [] ;;
  ret (value (QDBusReply_IntegerRangeList msg)).

Definition getAvailableBufferSizes : M (list IntegerRange) :=
  msg <- call "getAvailableBufferSizes" [] ;;
  ret (value (QDBusReply_IntegerRangeList msg)).

Definition hwBuffering : M bool :=
  msg <- call "hwBuffering" [] ;;
  ret (value (QDBusReply_bool msg)).

(** [releaseInterface(id(), pimpl_->sessionId_)] *)
Definition release : M bool :=
  i <- id ;;
  p <- pimpl ;;
  outside (releaseInterface i (sessionId_ p)).

(** The destructor, up to [delete pimpl_]. *)
Definition destructor : M unit :=
  valid <- outside (fun w => (interface_isValid w, w)) ;;
  (if valid then release ;; ret tt else ret tt) ;;
  ok <- outside dropConnection ;;
  if negb ok
  then setError SClientSocketError "Socket disconnect failed."
  else ret tt.

(** *** A client

    The public member functions with their arguments, and a client that
    calls a list of them in order.  A call that does not come back (the
    assertion of [QList::at] in [setDataRangeIndex], a drain loop whose fuel
    is spent) ends the run: [false] is answered and nothing more is
    called. *)
Inductive Operation : Type :=
| OStart
| OStop
| OStart_sid (sessionId : Z)
| OStop_sid (sessionId : Z)
| OSetInterval_sid (sessionId value : Z)
| OSetBufferInterval_sid (sessionId value : Z)
| OSetBufferSize_sid (sessionId value : Z)
| OSetStandbyOverride_sid (sessionId : Z) (value : bool)
| OSetInterval (value : Z)
| OSetBufferInterval (value : Z)
| OSetBufferSize (value : Z)
| OSetStandbyOverride (override : bool)
| OGetAvailableDataRanges
| OGetCurrentDataRange
| ORequestDataRange (range : DataRange)
| ORemoveDataRangeRequest
| OGetAvailableIntervals
| OGetAvailableBufferIntervals
| OGetAvailableBufferSizes
| OHwBuffering
| OSetDataRangeIndex (dataRangeIndex : Z)
| ORead (a : Accessor)
| ODataReceived (fuel : nat)
| ORelease.

Definition returned {A : Type} (c : M A) : M bool := c ;; ret true.

Definition exec (o : Operation) : M bool :=
  match o with
  | OStart => returned start
  | OStop => returned stop
  | OStart_sid sid => returned (start_sid sid)
  | OStop_sid sid => returned (stop_sid sid)
  | OSetInterval_sid sid v => returned (setInterval_sid sid v)
  | OSetBufferInterval_sid sid v => returned (setBufferInterval_sid sid v)
  | OSetBufferSize_sid sid v => returned (setBufferSize_sid sid v)
  | OSetStandbyOverride_sid sid b => returned (setStandbyOverride_sid sid b)
  | OSetInterval v => returned (setInterval v)
  | OSetBufferInterval v => returned (setBufferInterval v)
  | OSetBufferSize v => returned (setBufferSize v)
  | OSetStandbyOverride b => returned (setStandbyOverride b)
  | OGetAvailableDataRanges => returned getAvailableDataRanges
  | OGetCurrentDataRange => returned getCurrentDataRange
  | ORequestDataRange r => returned (requestDataRange r)
  | ORemoveDataRangeRequest => returned removeDataRangeRequest
  | OGetAvailableIntervals => returned getAvailableIntervals
  | OGetAvailableBufferIntervals => returned getAvailableBufferIntervals
  | OGetAvailableBufferSizes => returned getAvailableBufferSizes
  | OHwBuffering => returned hwBuffering
  | OSetDataRangeIndex i =>
      r <- setDataRangeIndex DataRange_eq i ;;
      ret (match r with Some _ => true | None => false end)
  | ORead a => returned (read a)
  | ODataReceived fuel =>
      r <- dataReceived fuel ;;
      ret (match r with Some _ => true | None => false end)
  | ORelease => returned release
  end.

Fixpoint execs (l : list Operation) : M bool :=
  match l with
  | [] => ret true
  | o :: l' =>
      ok <- exec o ;;
      if ok then execs l' else ret false
  end.

(** What an operation does to the private structure. *)
Definition step (o : Operation) (p : Impl) : Impl :=
  match o with
  | OStart | OStart_sid _ =>
      if running_ p then cleared p else set_running true (cleared p)
  | OStop | OStop_sid _ =>
      if running_ p then set_running false (cleared p) else cleared p
  | OSetInterval_sid _ _ | OSetBufferInterval_sid _ _
  | OSetBufferSize_sid _ _ | OSetStandbyOverride_sid _ _ => cleared p
  | OSetInterval v =>
      if running_ p then cleared (set_interval v p) else set_interval v p
  | OSetBufferInterval v =>
      if running_ p then set_bufferInterval v p
      else cleared (set_bufferInterval v p)
  | OSetBufferSize v =>
      if running_ p then set_bufferSize v p else cleared (set_bufferSize v p)
  | OSetStandbyOverride b => cleared (set_standbyOverride b p)
  | OGetCurrentDataRange | ORequestDataRange _ | ORemoveDataRangeRequest
  | OSetDataRangeIndex _ => cleared p
  | OGetAvailableDataRanges | OGetAvailableIntervals
  | OGetAvailableBufferIntervals | OGetAvailableBufferSizes | OHwBuffering
  | ORead _ | ODataReceived _ | ORelease => p
  end.

(** The [start] and [stop] calls of a trace, in order: [true] for a
    [start], [false] for a [stop]. *)
Fixpoint lifecycle (t : list (Event DataRange)) : list bool :=
  match t with
  | [] => []
  | EvCall m _ :: t' =>
      if String.eqb m "start" then true :: lifecycle t'
      else if String.eqb m "stop" then false :: lifecycle t'
      else lifecycle t'
  | _ :: t' => lifecycle t'
  end.

(** A daemon that is running or not ([r]) follows the [start]/[stop] calls
    it receives; a [start] while running or a [stop] while stopped is out of
    sequence ([None]). *)
Fixpoint replay (r : bool) (l : list bool) : option bool :=
  match l with
  | [] => Some r
  | b :: l' => if Bool.eqb b r then None else replay b l'
  end.

(** The values given to [setInterval(value)], [setBufferInterval(value)],
    [setBufferSize(value)] and [setStandbyOverride(value)] last, if any. *)
Definition written (o : Operation) (p : Impl) : Impl :=
  match o with
  | OSetInterval v => set_interval v p
  | OSetBufferInterval v => set_bufferInterval v p
  | OSetBufferSize v => set_bufferSize v p
  | OSetStandbyOverride b => set_standbyOverride b p
  | _ => p
  end.

End Remaining.

Arguments Operation : clear implicits.

(** ** A simulated daemon

    A small sensor daemon and socket on which the member functions can be
    run: data ranges are triples of integers, the socket holds a number of
    whole frames of [frame_size] bytes, and the daemon keeps the values it is
    sent. *)

Module Sim.

Definition DataRange : Type := (Z * Z * Z)%type.

Definition DataRange_eq (a b : DataRange) : bool :=
  let '(a1, a2, a3) := a in
  let '(b1, b2, b3) := b in
  (a1 =? b1) && (a2 =? b2) && (a3 =? b3).

Definition SClientSocketError : SensorError := 2.

Definition frame_size : Z := 8.

Record World : Type := mkWorld {
  socket_opens : bool;
  frames : nat;
  ranges : list DataRange;
  current : DataRange;
  remote_interval : Z;
  remote_error : Z
}.

Inductive Message : Type :=
| MsgVoid
| MsgBool (b : bool)
| MsgRanges (l : list DataRange)
| MsgRange (r : DataRange).

Definition serve (method : string) (args : list (QVariant DataRange)) (w : World)
  : Message * World :=
  if String.eqb method "getAvailableDataRanges" then (MsgRanges (ranges w), w)
  else if String.eqb method "getCurrentDataRange" then (MsgRange (current w), w)
  else if String.eqb method "setStandbyOverride" then (MsgBool true, w)
  else if String.eqb method "setInterval" then
    match args with
    | [_; QInt v] =>
        (MsgVoid, mkWorld (socket_opens w) (frames w) (ranges w) (current w) v
                          (remote_error w))
    | _ => (MsgVoid, w)
    end
  else if String.eqb method "setDataRangeIndex" then
    match args with
    | [_; QInt i] =>
        match at_ (ranges w) i with
        | Some r =>
            (MsgVoid, mkWorld (socket_opens w) (frames w) (ranges w) r
                              (remote_interval w) (remote_error w))
        | None => (MsgVoid, w)
        end
    | _ => (MsgVoid, w)
    end
  else (MsgVoid, w).

Definition property (name : string) (w : World) : QVariant DataRange * World :=
  if String.eqb name "interval" then (QInt (remote_interval w), w)
  else if String.eqb name "errorCodeInt" then (QInt (remote_error w), w)
  else (QInvalid, w).

#[export] Instance bus : QtDBus DataRange World := {
  QDBusMessage := Message;
  callWithArgumentList := serve;
  internalPropGet := property;
  QDBusReply_void := fun _ => mkReply None tt;
  QDBusReply_bool := fun m =>
    match m with MsgBool b => mkReply None b | _ => mkReply None false end;
  QDBusReply_DataRangeList := fun m =>
    match m with MsgRanges l => mkReply None l | _ => mkReply None [] end;
  QDBusReply_DataRange := fun m =>
    match m with MsgRange r => mkReply None r | _ => mkReply None (0, 0, 0) end;
  qvariant_cast_int := fun v => match v with QInt z => z | _ => 0 end;
  qvariant_cast_uint := fun v => match v with QUInt z => z | _ => 0 end;
  qvariant_cast_bool := fun v => match v with QBool b => b | _ => false end;
  qvariant_cast_QString := fun v => match v with QString t => t | _ => "" end
}.

#[export] Instance socket : SocketReader World := {
  initiateConnection := fun _ w => (socket_opens w, w);
  bytesAvailable := fun w => frame_size * Z.of_nat (frames w)
}.

(** A decoder that takes one whole frame off the socket when there is one. *)
#[export] Instance decoder : FrameDecoder World := {
  dataReceivedImpl := fun w =>
    match frames w with
    | O => (false, w)
    | S n => (true, mkWorld (socket_opens w) n (ranges w) (current w)
                            (remote_interval w) (remote_error w))
    end
}.

(** A daemon with two data ranges, the first one current. *)
Definition daemon (opens : bool) (n : nat) : World :=
  mkWorld opens n [(0, 10, 1); (0, 100, 5)] (0, 10, 1) 0 0.

(** Session 7, as constructed. *)
Definition fresh (opens : bool) (n : nat) : Session DataRange World :=
  AbstractSensorChannelInterface SClientSocketError 7 (daemon opens n).

#[export] Instance integer_ranges : IntegerRanges DataRange World := {
  IntegerRange := (Z * Z)%type;
  QDBusReply_IntegerRangeList := fun _ => mkReply None [(0, 10)]
}.

(** The interface is valid, release succeeds, and the socket closes when it
    had opened. *)
#[export] Instance lifetime : Lifetime World := {
  interface_isValid := fun _ => true;
  releaseInterface := fun _ _ w => (true, w);
  dropConnection := fun w => (socket_opens w, w)
}.

End Sim.

(** A socket that holds whole frames followed by the first bytes of the
    next one, and a decoder that waits for a frame to be whole. *)
Module SimBytes.

Record Socket : Type := mkSocket {
  whole : nat;
  partial : Z
}.

#[export] Instance socket : SocketReader Socket := {
  initiateConnection := fun _ w => (true, w);
  bytesAvailable := fun w => Sim.frame_size * Z.of_nat (whole w) + partial w
}.

#[export] Instance decoder : FrameDecoder Socket := {
  dataReceivedImpl := fun w =>
    match whole w with
    | O => (false, w)
    | S n => (true, mkSocket n (partial w))
    end
}.

(** A stopped session 7 in front of such a socket. *)
Definition session (n : nat) (rest : Z) : Session unit Socket :=
  mkSession (Impl_new 7) (mkSocket n rest) [].

End SimBytes.

(** * Properties *)

Section Properties.

Context {DataRange W : Type}.
Context {Bus : QtDBus DataRange W} {Sock : SocketReader W} {Dec : FrameDecoder W}.

Implicit Types (s : Session DataRange W) (p : Impl).

(** ** Building blocks *)

Lemma cleared_fixed p :
  errorCode_ p = SNoError -> errorString_ p = "" -> cleared p = p.
Proof. destruct p; simpl; intros -> ->; reflexivity. Qed.

(** Unfolding of the member functions down to the session they produce. *)
Ltac members :=
  unfold run, start, stop, start_sid, stop_sid,
    setInterval, setBufferInterval, setBufferSize, setStandbyOverride,
    setInterval_sid, setBufferInterval_sid, setBufferSize_sid,
    setStandbyOverride_sid,
    interval, bufferInterval, bufferSize, standbyOverride,
    errorCode, errorString, errorCodeInt, description, id, type, sessionId,
    setDataRangeIndex, getAvailableDataRanges, getCurrentDataRange,
    call, propGet, clearError, setError, bind, pimpl, modify, emit, outside, ret;
  simpl.

Lemma start_trace s :
  running_ (pimpl_ s) = false ->
  trace (run start s) =
  trace s
  ++ [EvRunning true; EvConnect; EvCall "start" [QInt (sessionId_ (pimpl_ s))]]
  ++ (if standbyOverride_ (pimpl_ s)
      then [EvCall "setStandbyOverride" [QInt (sessionId_ (pimpl_ s)); QBool true]]
      else [])
  ++ [EvCall "setInterval" [QInt (sessionId_ (pimpl_ s)); QInt (interval_ (pimpl_ s))];
      EvCall "setBufferInterval"
        [QInt (sessionId_ (pimpl_ s)); QUInt (bufferInterval_ (pimpl_ s))];
      EvCall "setBufferSize"
        [QInt (sessionId_ (pimpl_ s)); QUInt (bufferSize_ (pimpl_ s))]].
Proof.
  intros Hr. members. rewrite Hr. simpl.
  destruct (standbyOverride_ (pimpl_ s)); simpl;
    repeat rewrite <- app_assoc; reflexivity.
Qed.

Lemma start_pimpl s :
  running_ (pimpl_ s) = false ->
  pimpl_ (run start s) = set_running true (cleared (pimpl_ s)).
Proof.
  intros Hr. members. rewrite Hr. simpl.
  destruct (standbyOverride_ (pimpl_ s)); reflexivity.
Qed.

Lemma start_reply s :
  running_ (pimpl_ s) = false ->
  fst (start s) =
  QDBusReply_void
    (fst (callWithArgumentList "start" [QInt (sessionId_ (pimpl_ s))] (world s))).
Proof.
  intros Hr. members. rewrite Hr. simpl.
  destruct (standbyOverride_ (pimpl_ s)); reflexivity.
Qed.

Lemma setInterval_stopped s (v : Z) :
  running_ (pimpl_ s) = false ->
  run (setInterval v) s =
  mkSession (set_interval v (pimpl_ s)) (world s) (trace s).
Proof. intros Hr. members. rewrite Hr. simpl. reflexivity. Qed.

(** ** The claims *)

(** C1.  On a session that is not running, [start()] marks the session as
    running, then issues the [start] call for the session, then — only when
    the cached standby override is set — [setStandbyOverride(sessionId, true)],
    then [setInterval], [setBufferInterval] and [setBufferSize] with the
    cached values, in this order and nothing else; the reply returned is the
    one of the [start] call.  If the interval was set to [v] while stopped
    (which issues nothing), the calls of the following [start()] contain
    exactly one [setInterval], it carries [v], and it comes after the [start]
    call. *)
Theorem C1_start_sequence s :
  running_ (pimpl_ s) = false ->
  let p := pimpl_ s in
  let sid := sessionId_ p in
  let standby :=
    if standbyOverride_ p
    then [EvCall "setStandbyOverride" [QInt sid; QBool true]] else [] in
  (trace (run start s) =
     trace s
     ++ [EvRunning true; EvConnect; EvCall "start" [QInt sid]]
     ++ standby
     ++ [EvCall "setInterval" [QInt sid; QInt (interval_ p)];
         EvCall "setBufferInterval" [QInt sid; QUInt (bufferInterval_ p)];
         EvCall "setBufferSize" [QInt sid; QUInt (bufferSize_ p)]])
  /\ pimpl_ (run start s) = set_running true (cleared p)
  /\ fst (start s) =
     QDBusReply_void (fst (callWithArgumentList "start" [QInt sid] (world s)))
  /\ forall v : Z,
       let s1 := run (setInterval v) s in
       let after_start :=
         standby
         ++ [EvCall "setInterval" [QInt sid; QInt v];
             EvCall "setBufferInterval" [QInt sid; QUInt (bufferInterval_ p)];
             EvCall "setBufferSize" [QInt sid; QUInt (bufferSize_ p)]] in
       trace s1 = trace s
       /\ trace (run start s1) =
          trace s ++ [EvRunning true; EvConnect; EvCall "start" [QInt sid]]
                  ++ after_start
       /\ calls_of "setInterval" after_start = [[QInt sid; QInt v]].
Proof.
  intros Hr p sid standby. split; [|split; [|split]].
  - exact (start_trace s Hr).
  - exact (start_pimpl s Hr).
  - exact (start_reply s Hr).
  - intros v s1 after_start.
    assert (E : s1 = mkSession (set_interval v p) (world s) (trace s))
      by (apply setInterval_stopped; exact Hr).
    assert (Hr1 : running_ (pimpl_ s1) = false) by (rewrite E; exact Hr).
    split; [rewrite E; reflexivity|]. split.
    + rewrite (start_trace s1 Hr1). rewrite E. reflexivity.
    + unfold after_start, standby.
      destruct (standbyOverride_ p); reflexivity.
Qed.

(** C2.  [setInterval(value)] always stores the value and calls the daemon
    exactly when the session is running; [setBufferInterval(value)] and
    [setBufferSize(value)] always store the value and call the daemon exactly
    when the session is not running.  The getters read the remote property
    while running and answer the stored value, without any interaction, while
    stopped. *)
Theorem C2_shadowing_table s (value : Z) :
  let p := pimpl_ s in
  let sid := sessionId_ p in
  let read_remote (name : string) (cast : QVariant DataRange -> Z) :=
    (cast (fst (internalPropGet name (world s))),
     mkSession p (snd (internalPropGet name (world s)))
               (trace s ++ [EvPropGet name])) in
  (interval_ (pimpl_ (run (setInterval value) s)) = value
   /\ trace (run (setInterval value) s) =
      trace s ++ (if running_ p
                  then [EvCall "setInterval" [QInt sid; QInt value]] else []))
  /\ (bufferInterval_ (pimpl_ (run (setBufferInterval value) s)) = value
      /\ trace (run (setBufferInterval value) s) =
         trace s ++ (if running_ p then []
                     else [EvCall "setBufferInterval" [QInt sid; QUInt value]]))
  /\ (bufferSize_ (pimpl_ (run (setBufferSize value) s)) = value
      /\ trace (run (setBufferSize value) s) =
         trace s ++ (if running_ p then []
                     else [EvCall "setBufferSize" [QInt sid; QUInt value]]))
  /\ interval s =
     (if running_ p then read_remote "interval" qvariant_cast_int
      else (interval_ p, s))
  /\ bufferInterval s =
     (if running_ p then read_remote "bufferInterval" qvariant_cast_uint
      else (bufferInterval_ p, s))
  /\ bufferSize s =
     (if running_ p then read_remote "bufferSize" qvariant_cast_uint
      else (bufferSize_ p, s)).
Proof.
  intros p sid read_remote. subst p sid read_remote.
  destruct s as [p w t]. members.
  destruct (running_ p); simpl; rewrite ?app_nil_r; repeat split; reflexivity.
Qed.

Lemma read_pimpl (a : Accessor) s : pimpl_ (run (read a) s) = pimpl_ s.
Proof.
  destruct s as [p w t]. destruct a; unfold read; members;
    try reflexivity;
    try (destruct (running_ p); reflexivity);
    destruct (errorCode_ p =? SNoError); reflexivity.
Qed.

Lemma run_seq {A B : Type} (c : Computation DataRange W A)
    (k : Computation DataRange W B) s :
  run (c ;; k) s = run k (run c s).
Proof. unfold run, bind. destruct (c s); reflexivity. Qed.

Lemma reads_pimpl (l : list Accessor) s : pimpl_ (run (reads l) s) = pimpl_ s.
Proof.
  revert s. induction l as [|a l IH]; intros s; [reflexivity|].
  simpl reads. rewrite run_seq, IH. apply read_pimpl.
Qed.

Lemma errorCode_local s :
  errorCode_ (pimpl_ s) <> SNoError ->
  errorCode s = (errorCode_ (pimpl_ s), s)
  /\ errorString s = (errorString_ (pimpl_ s), s).
Proof.
  intros H. apply Z.eqb_neq in H. members. rewrite H.
  destruct s; split; reflexivity.
Qed.

(** C3.  [errorCode()] answers the locally recorded error kind whenever one
    is recorded, without any interaction, and reads the remote
    [errorCodeInt] property only when none is recorded; [errorString()] does
    the same with the local message.  No accessor, whatever it reads from the
    daemon, changes the recorded error: after any sequence of reads
    [errorCode()] and [errorString()] still answer it.  [clearError()]
    resets it. *)
Theorem C3_local_error_precedence s :
  let p := pimpl_ s in
  let remote (name : string) :=
    mkSession p (snd (internalPropGet name (world s)))
              (trace s ++ [EvPropGet name]) in
  errorCode s =
    (if errorCode_ p =? SNoError
     then (qvariant_cast_int (fst (internalPropGet "errorCodeInt" (world s))),
           remote "errorCodeInt")
     else (errorCode_ p, s))
  /\ errorString s =
    (if errorCode_ p =? SNoError
     then (qvariant_cast_QString (fst (internalPropGet "errorString" (world s))),
           remote "errorString")
     else (errorString_ p, s))
  /\ (forall l : list Accessor, pimpl_ (run (reads l) s) = p)
  /\ (forall l : list Accessor,
        errorCode_ p <> SNoError ->
        let s' := run (reads l) s in
        errorCode s' = (errorCode_ p, s')
        /\ errorString s' = (errorString_ p, s'))
  /\ pimpl_ (run clearError s) = cleared p
  /\ errorCode_ (cleared p) = SNoError
  /\ errorString_ (cleared p) = "".
Proof.
  intros p remote. subst p remote. repeat split.
  - destruct s as [p w t]. members.
    destruct (errorCode_ p =? SNoError); reflexivity.
  - destruct s as [p w t]. members.
    destruct (errorCode_ p =? SNoError); reflexivity.
  - intros l. apply reads_pimpl.
  - pose proof (reads_pimpl l s) as E.
    destruct (errorCode_local (run (reads l) s)) as [Hc _];
      [rewrite E; assumption|].
    rewrite E in Hc. exact Hc.
  - pose proof (reads_pimpl l s) as E.
    destruct (errorCode_local (run (reads l) s)) as [_ Hs];
      [rewrite E; assumption|].
    rewrite E in Hs. exact Hs.
Qed.

(** C4, as the code has it.  [start()] on a running session and [stop()] on
    a session that is not running return the default, valid reply, issue
    nothing (no call, no property read, no change of the outside) and leave
    the session as it was except for the local error, which is cleared; a
    session with no local error recorded is left exactly as it was. *)
Theorem C4_idle_start_stop s :
  let p := pimpl_ s in
  let s' := mkSession (cleared p) (world s) (trace s) in
  (running_ p = true -> start s = (QDBusReply_default, s'))
  /\ (running_ p = false -> stop s = (QDBusReply_default, s'))
  /\ isValid QDBusReply_default = true
  /\ (errorCode_ p = SNoError -> errorString_ p = "" -> s' = s).
Proof.
  intros p s'. subst p s'. destruct s as [p w t]. simpl. repeat split.
  - intros Hr. members. rewrite Hr. simpl. reflexivity.
  - intros Hr. members. rewrite Hr. simpl. reflexivity.
  - intros Hc Hs. rewrite (cleared_fixed p Hc Hs). reflexivity.
Qed.

(** C5, as the code has it.  The calls that name the session
    ([setInterval(sessionId, value)] and its three siblings) and
    [setStandbyOverride(value)] always clear the local error.  The property
    setters clear it exactly when they call the daemon: [setInterval(value)]
    while running, [setBufferInterval(value)] and [setBufferSize(value)] while
    not running; otherwise they store the value and leave the local error as
    it was. *)
Theorem C5_mutators_clear_error s (sid value : Z) (b : bool) :
  let p := pimpl_ s in
  pimpl_ (run (setInterval_sid sid value) s) = cleared p
  /\ pimpl_ (run (setBufferInterval_sid sid value) s) = cleared p
  /\ pimpl_ (run (setBufferSize_sid sid value) s) = cleared p
  /\ pimpl_ (run (setStandbyOverride_sid sid b) s) = cleared p
  /\ pimpl_ (run (setStandbyOverride b) s) = cleared (set_standbyOverride b p)
  /\ pimpl_ (run (setInterval value) s) =
     (if running_ p then cleared (set_interval value p)
      else set_interval value p)
  /\ pimpl_ (run (setBufferInterval value) s) =
     (if running_ p then set_bufferInterval value p
      else cleared (set_bufferInterval value p))
  /\ pimpl_ (run (setBufferSize value) s) =
     (if running_ p then set_bufferSize value p
      else cleared (set_bufferSize value p))
  /\ trace (run (setStandbyOverride b) s) =
     trace s ++ [EvCall "setStandbyOverride" [QInt (sessionId_ p); QBool b]]
  /\ trace (run (setInterval value) s) =
     trace s ++ (if running_ p
                 then [EvCall "setInterval" [QInt (sessionId_ p); QInt value]]
                 else [])
  /\ trace (run (setBufferInterval value) s) =
     trace s ++ (if running_ p then []
                 else [EvCall "setBufferInterval"
                         [QInt (sessionId_ p); QUInt value]])
  /\ trace (run (setBufferSize value) s) =
     trace s ++ (if running_ p then []
                 else [EvCall "setBufferSize" [QInt (sessionId_ p); QUInt value]]).
Proof.
  intros p. subst p. destruct s as [p w t]. members.
  destruct (running_ p); simpl; rewrite ?app_nil_r; repeat split; reflexivity.
Qed.

Lemma at_Some {A : Type} (l : list A) (i : Z) :
  0 <= i < Z.of_nat (List.length l) <-> exists r, at_ l i = Some r.
Proof.
  unfold at_. split.
  - intros [Hlo Hhi]. apply Z.ltb_ge in Hlo. rewrite Hlo.
    destruct (nth_error l (Z.to_nat i)) eqn:E; [eauto|].
    apply nth_error_None in E. apply Z.ltb_ge in Hlo. lia.
  - intros [r Hr]. destruct (i <? 0) eqn:Hlo; [discriminate|].
    apply Z.ltb_ge in Hlo.
    assert (Hn : nth_error l (Z.to_nat i) <> None) by (rewrite Hr; discriminate).
    apply nth_error_Some in Hn. lia.
Qed.

Lemma at_None {A : Type} (l : list A) (i : Z) :
  ~ (0 <= i < Z.of_nat (List.length l)) <-> at_ l i = None.
Proof.
  split.
  - intros H. destruct (at_ l i) eqn:E; [|reflexivity].
    exfalso. apply H. apply at_Some. eauto.
  - intros E H. apply at_Some in H. destruct H as [r Hr]. congruence.
Qed.

Section DataRangeIndex.

Variable DataRange_eq : DataRange -> DataRange -> bool.

Lemma setDataRangeIndex_result s (i : Z) :
  let w1 := snd (callWithArgumentList "setDataRangeIndex"
                   [QInt (sessionId_ (pimpl_ s)); QInt i] (world s)) in
  let fetched := callWithArgumentList "getAvailableDataRanges" [] w1 in
  let ranges := value (QDBusReply_DataRangeList (fst fetched)) in
  let range :=
    value (QDBusReply_DataRange
             (fst (callWithArgumentList "getCurrentDataRange" [] (snd fetched)))) in
  fst (setDataRangeIndex DataRange_eq i s) =
  match at_ ranges i with
  | Some r => Some (DataRange_eq r range)
  | None => None
  end.
Proof. reflexivity. Qed.

(** C6.  [setDataRangeIndex(i)] first sends the call with [(sessionId, i)],
    then fetches the list of available data ranges, then the current data
    range, and answers [true] if and only if the list fetched has an element
    at position [i] and that element equals ([operator==]) the current range
    fetched; for an index inside the list the answer is that comparison. *)
Theorem C6_setDataRangeIndex_verifies s (i : Z) :
  let sid := sessionId_ (pimpl_ s) in
  let w1 := snd (callWithArgumentList "setDataRangeIndex" [QInt sid; QInt i]
                   (world s)) in
  let fetched := callWithArgumentList "getAvailableDataRanges" [] w1 in
  let ranges := value (QDBusReply_DataRangeList (fst fetched)) in
  let current := callWithArgumentList "getCurrentDataRange" [] (snd fetched) in
  let range := value (QDBusReply_DataRange (fst current)) in
  let result := setDataRangeIndex DataRange_eq i s in
  trace (snd result) =
    trace s ++ [EvCall "setDataRangeIndex" [QInt sid; QInt i];
                EvCall "getAvailableDataRanges" [];
                EvCall "getCurrentDataRange" []]
  /\ world (snd result) = snd current
  /\ (fst result = Some true <->
      exists r, at_ ranges i = Some r /\ DataRange_eq r range = true)
  /\ (forall r, at_ ranges i = Some r -> fst result = Some (DataRange_eq r range)).
Proof.
  intros sid w1 fetched ranges current range result.
  assert (R : fst result =
              match at_ ranges i with
              | Some r => Some (DataRange_eq r range)
              | None => None
              end) by apply setDataRangeIndex_result.
  split; [|split; [|split]].
  - subst result. members. repeat rewrite <- app_assoc. reflexivity.
  - reflexivity.
  - rewrite R. split.
    + destruct (at_ ranges i) as [r|]; [|discriminate].
      intros H. exists r. split; [reflexivity|congruence].
    + intros [r [Hr Heq]]. rewrite Hr, Heq. reflexivity.
  - intros r Hr. rewrite R, Hr. reflexivity.
Qed.

(** C10.  [setDataRangeIndex(i)] indexes the list it fetched with no bounds
    check: it has a result exactly when [0 <= i < length] of that list.
    Under this precondition the indexing cannot fail and the result is the
    comparison of the element at [i] with the current range; outside of it
    there is no result. *)
Theorem C10_index_precondition s (i : Z) :
  let sid := sessionId_ (pimpl_ s) in
  let w1 := snd (callWithArgumentList "setDataRangeIndex" [QInt sid; QInt i]
                   (world s)) in
  let fetched := callWithArgumentList "getAvailableDataRanges" [] w1 in
  let ranges := value (QDBusReply_DataRangeList (fst fetched)) in
  let result := fst (setDataRangeIndex DataRange_eq i s) in
  (0 <= i < Z.of_nat (List.length ranges) -> exists b, result = Some b)
  /\ (~ (0 <= i < Z.of_nat (List.length ranges)) -> result = None).
Proof.
  intros sid w1 fetched ranges result.
  assert (R : result =
              match at_ ranges i with
              | Some r =>
                  Some (DataRange_eq r
                          (value (QDBusReply_DataRange
                                    (fst (callWithArgumentList
                                            "getCurrentDataRange" []
                                            (snd fetched))))))
              | None => None
              end) by apply setDataRangeIndex_result.
  split.
  - intros H. apply at_Some in H. destruct H as [r Hr].
    rewrite R, Hr. eauto.
  - intros H. apply at_None in H. rewrite R, H. reflexivity.
Qed.

End DataRangeIndex.

(** C7.  When the socket cannot be opened, the constructor records
    [SClientSocketError] with its message and nothing else happens: right
    after construction [errorCode()] answers [SClientSocketError] and
    [errorString()] the message, both without asking the daemon.  The object
    is otherwise the one a successful construction yields (stopped, default
    configuration), and [start()] on it issues its calls as on any stopped
    session. *)
Theorem C7_constructor_records_socket_error
    (SClientSocketError : SensorError) (sid : Z) (w : W) :
  SClientSocketError <> SNoError ->
  fst (initiateConnection sid w) = false ->
  let s := AbstractSensorChannelInterface (DataRange := DataRange)
             SClientSocketError sid w in
  errorCode s = (SClientSocketError, s)
  /\ errorString s = ("Socket connection failed.", s)
  /\ trace s = [EvInitiateConnection sid]
  /\ pimpl_ s =
     set_error SClientSocketError "Socket connection failed." (Impl_new sid)
  /\ pimpl_ (run clearError s) = Impl_new sid
  /\ trace (run start s) =
     [EvInitiateConnection sid; EvRunning true; EvConnect;
      EvCall "start" [QInt sid];
      EvCall "setInterval" [QInt sid; QInt 0];
      EvCall "setBufferInterval" [QInt sid; QUInt 0];
      EvCall "setBufferSize" [QInt sid; QUInt 1]]
  /\ pimpl_ (run start s) = set_running true (Impl_new sid).
Proof.
  intros Herr Hopen s.
  assert (E : s = mkSession
                    (set_error SClientSocketError "Socket connection failed."
                               (Impl_new sid))
                    (snd (initiateConnection sid w))
                    [EvInitiateConnection sid]).
  { subst s. unfold AbstractSensorChannelInterface. members.
    rewrite Hopen. reflexivity. }
  assert (Hp : errorCode_ (pimpl_ s) <> SNoError) by (rewrite E; exact Herr).
  destruct (errorCode_local s Hp) as [Hc Hs].
  split; [rewrite Hc, E; reflexivity|].
  split; [rewrite Hs, E; reflexivity|].
  split; [rewrite E; reflexivity|].
  split; [rewrite E; reflexivity|].
  split; [rewrite E; reflexivity|].
  split.
  - rewrite start_trace by (rewrite E; reflexivity). rewrite E. reflexivity.
  - rewrite start_pimpl by (rewrite E; reflexivity). rewrite E. reflexivity.
Qed.

Lemma stop_running s :
  running_ (pimpl_ s) = true ->
  pimpl_ (run stop s) = set_running false (cleared (pimpl_ s))
  /\ trace (run stop s) =
     trace s ++ [EvRunning false; EvDisconnect;
                 EvCall "setStandbyOverride" [QInt (sessionId_ (pimpl_ s)); QBool false];
                 EvCall "setInterval" [QInt (sessionId_ (pimpl_ s)); QInt 0];
                 EvCall "stop" [QInt (sessionId_ (pimpl_ s))]].
Proof.
  intros Hr. members. rewrite Hr. simpl.
  repeat rewrite <- app_assoc. split; reflexivity.
Qed.

(** C9.  [stop()] on a running session leaves the cached standby override
    as it was: it forces the override to false at the daemon with the call
    that names the session, which does not write the cache (the setter
    [setStandbyOverride(value)] does).  A cached [true] therefore survives
    the stop, and the next [start()] issues
    [setStandbyOverride(sessionId, true)] again after its [start] call. *)
Theorem C9_stop_keeps_standby_cache s :
  running_ (pimpl_ s) = true ->
  let p := pimpl_ s in
  let sid := sessionId_ p in
  standbyOverride_ (pimpl_ (run stop s)) = standbyOverride_ p
  /\ trace (run stop s) =
     trace s ++ [EvRunning false; EvDisconnect;
                 EvCall "setStandbyOverride" [QInt sid; QBool false];
                 EvCall "setInterval" [QInt sid; QInt 0];
                 EvCall "stop" [QInt sid]]
  /\ (forall (sid' : Z) (b : bool),
        standbyOverride_ (pimpl_ (run (setStandbyOverride_sid sid' b) s)) =
        standbyOverride_ p)
  /\ (forall b : bool,
        standbyOverride_ (pimpl_ (run (setStandbyOverride b) s)) = b)
  /\ (standbyOverride_ p = true ->
      trace (run start (run stop s)) =
      trace (run stop s)
      ++ [EvRunning true; EvConnect; EvCall "start" [QInt sid];
          EvCall "setStandbyOverride" [QInt sid; QBool true];
          EvCall "setInterval" [QInt sid; QInt (interval_ p)];
          EvCall "setBufferInterval" [QInt sid; QUInt (bufferInterval_ p)];
          EvCall "setBufferSize" [QInt sid; QUInt (bufferSize_ p)]]).
Proof.
  intros Hr p sid. destruct (stop_running s Hr) as [Hp Ht].
  split; [rewrite Hp; reflexivity|].
  split; [exact Ht|].
  split; [intros sid' b; reflexivity|].
  split; [intros b; reflexivity|].
  intros Hs.
  rewrite start_trace by (rewrite Hp; reflexivity).
  rewrite Hp. simpl. fold p. rewrite Hs. reflexivity.
Qed.

(** ** The drain loop *)

Lemma dataReceived_step (fuel : nat) s :
  dataReceived (S fuel) s =
  let s1 := mkSession (pimpl_ s) (snd (dataReceivedImpl (world s)))
                      (trace s ++ [EvDataReceivedImpl]) in
  if continues (world s) then dataReceived fuel s1 else (Some tt, s1).
Proof.
  unfold continues. simpl. members.
  destruct (fst (dataReceivedImpl (world s))); simpl; [|reflexivity].
  destruct (bytesAvailable (snd (dataReceivedImpl (world s))) =? 0);
    reflexivity.
Qed.

(** Enough fuel: a loop whose condition first fails in iteration [k]
    returns, after [S k] runs of the decoder. *)
Lemma dataReceived_stops (k : nat) :
  forall (fuel : nat) s,
    (k < fuel)%nat ->
    (forall j : nat, (j < k)%nat -> continues (decoded j (world s)) = true) ->
    continues (decoded k (world s)) = false ->
    dataReceived fuel s =
    (Some tt, mkSession (pimpl_ s) (decoded (S k) (world s))
                        (trace s ++ repeat EvDataReceivedImpl (S k))).
Proof.
  induction k as [|k IH]; intros fuel s Hf Hbefore Hlast.
  - destruct fuel as [|fuel]; [lia|].
    rewrite dataReceived_step. simpl in Hlast. simpl. rewrite Hlast.
    reflexivity.
  - destruct fuel as [|fuel]; [lia|].
    rewrite dataReceived_step. simpl.
    assert (H0 : continues (world s) = true) by (apply (Hbefore 0%nat); lia).
    rewrite H0.
    rewrite IH.
    + simpl. rewrite <- app_assoc. reflexivity.
    + lia.
    + intros j Hj. simpl. apply (Hbefore (S j)). lia.
    + exact Hlast.
Qed.

(** A loop that returned did so at the first iteration whose condition
    failed. *)
Lemma dataReceived_returned (fuel : nat) :
  forall s s',
    dataReceived fuel s = (Some tt, s') ->
    exists k : nat,
      (k < fuel)%nat
      /\ (forall j : nat, (j < k)%nat -> continues (decoded j (world s)) = true)
      /\ continues (decoded k (world s)) = false
      /\ s' = mkSession (pimpl_ s) (decoded (S k) (world s))
                        (trace s ++ repeat EvDataReceivedImpl (S k)).
Proof.
  induction fuel as [|fuel IH]; intros s s' H.
  - discriminate H.
  - rewrite dataReceived_step in H. simpl in H.
    destruct (continues (world s)) eqn:Hc.
    + apply IH in H. destruct H as [k [Hk [Hbefore [Hlast Hs']]]].
      exists (S k). split; [lia|]. split; [|split].
      * intros [|j] Hj; [exact Hc|]. simpl. apply Hbefore. lia.
      * exact Hlast.
      * rewrite Hs'. simpl. rewrite <- app_assoc. reflexivity.
    + exists 0%nat. split; [lia|]. split; [|split].
      * intros j Hj. lia.
      * exact Hc.
      * injection H as <-. reflexivity.
Qed.

Section WholeFrames.

(** The number of whole frames the socket holds. *)
Variable buffered : W -> nat.

(** With a frame buffered the decoder consumes exactly one. *)
Hypothesis decoder_consumes :
  forall (w : W) (n : nat),
    buffered w = S n ->
    fst (dataReceivedImpl w) = true /\ buffered (snd (dataReceivedImpl w)) = n.

(** The socket holds whole frames only: no bytes but those of the frames. *)
Hypothesis no_partial_frame :
  forall w : W, bytesAvailable w = 0 <-> buffered w = 0%nat.

Lemma buffered_decoded (j : nat) :
  forall (w : W) (n : nat),
    buffered w = (j + n)%nat -> buffered (decoded j w) = n.
Proof.
  induction j as [|j IH]; intros w n H; [exact H|].
  simpl. apply IH. apply (decoder_consumes w (j + n)%nat). exact H.
Qed.

Lemma continues_buffered (w : W) (n : nat) :
  buffered w = S n -> continues w = negb (Nat.eqb n 0).
Proof.
  intros H. destruct (decoder_consumes w n H) as [Ht Hn].
  unfold continues. rewrite Ht. simpl. f_equal.
  destruct n as [|n]; simpl.
  - apply Z.eqb_eq. apply no_partial_frame. exact Hn.
  - apply Z.eqb_neq. intros E. apply no_partial_frame in E. congruence.
Qed.

Lemma dataReceived_whole_frames (N fuel : nat) s :
  buffered (world s) = N ->
  (1 <= N)%nat ->
  (N <= fuel)%nat ->
  dataReceived fuel s =
  (Some tt, mkSession (pimpl_ s) (decoded N (world s))
                      (trace s ++ repeat EvDataReceivedImpl N))
  /\ bytesAvailable (decoded N (world s)) = 0.
Proof.
  intros HN H1 Hf. destruct N as [|k]; [lia|]. split.
  - apply dataReceived_stops; [lia| |].
    + intros j Hj.
      rewrite (continues_buffered (decoded j (world s)) (k - j)%nat).
      * destruct (k - j)%nat eqn:E; [lia|reflexivity].
      * apply buffered_decoded. rewrite HN. lia.
    + rewrite (continues_buffered (decoded k (world s)) 0%nat); [reflexivity|].
      apply buffered_decoded. rewrite HN. lia.
  - apply no_partial_frame. apply buffered_decoded. rewrite HN. lia.
Qed.

End WholeFrames.

Lemma continues_true (w : W) :
  continues w = true <->
  fst (dataReceivedImpl w) = true
  /\ bytesAvailable (snd (dataReceivedImpl w)) <> 0.
Proof.
  unfold continues. rewrite andb_true_iff, negb_true_iff, Z.eqb_neq.
  reflexivity.
Qed.

Lemma continues_false (w : W) :
  continues w = false <->
  fst (dataReceivedImpl w) = false
  \/ bytesAvailable (snd (dataReceivedImpl w)) = 0.
Proof.
  unfold continues. rewrite andb_false_iff, negb_false_iff, Z.eqb_eq.
  reflexivity.
Qed.

(** C8.  On a readability notification the loop runs the decoder again and
    again and stops exactly at the first run where the decoder reports no
    complete frame or after which the socket reports zero bytes available:
    if the [k+1]-th run is the first such run the loop returns after exactly
    [k+1] runs, and a loop that returned did so at such a run.  In
    particular, notified of a socket that holds [N] whole frames and no other
    bytes, it runs the decoder exactly [N] times and returns after the
    [N]-th, when no bytes are left. *)
Theorem C8_drain_loop (fuel : nat) s :
  let w := world s in
  let last_run (k : nat) :=
    (forall j : nat,
        (j < k)%nat ->
        fst (dataReceivedImpl (decoded j w)) = true
        /\ bytesAvailable (snd (dataReceivedImpl (decoded j w))) <> 0)
    /\ (fst (dataReceivedImpl (decoded k w)) = false
        \/ bytesAvailable (snd (dataReceivedImpl (decoded k w))) = 0) in
  let after (k : nat) :=
    mkSession (pimpl_ s) (decoded k w)
              (trace s ++ repeat EvDataReceivedImpl k) in
  (forall k : nat,
      (k < fuel)%nat -> last_run k ->
      dataReceived fuel s = (Some tt, after (S k)))
  /\ (forall s',
        dataReceived fuel s = (Some tt, s') ->
        exists k : nat, (k < fuel)%nat /\ last_run k /\ s' = after (S k))
  /\ (forall (buffered : W -> nat) (N : nat),
        (forall (w' : W) (n : nat),
            buffered w' = S n ->
            fst (dataReceivedImpl w') = true
            /\ buffered (snd (dataReceivedImpl w')) = n) ->
        (forall w' : W, bytesAvailable w' = 0 <-> buffered w' = 0%nat) ->
        bytesAvailable w <> 0 ->
        buffered w = N ->
        (N <= fuel)%nat ->
        dataReceived fuel s = (Some tt, after N)
        /\ bytesAvailable (decoded N w) = 0).
Proof.
  intros w last_run after. split; [|split].
  - intros k Hk [Hbefore Hlast]. apply dataReceived_stops; [exact Hk| |].
    + intros j Hj. apply continues_true. apply Hbefore. exact Hj.
    + apply continues_false. exact Hlast.
  - intros s' H.
    destruct (dataReceived_returned fuel s s' H)
      as [k [Hk [Hbefore [Hlast Hs']]]].
    exists k. split; [exact Hk|]. split; [|exact Hs'].
    split.
    + intros j Hj. apply continues_true. apply Hbefore. exact Hj.
    + apply continues_false. exact Hlast.
  - intros buffered N Hdec Hbytes Hnotified HN Hf.
    assert (H1 : (1 <= N)%nat).
    { destruct N as [|N]; [|lia].
      exfalso. apply Hnotified. apply Hbytes. exact HN. }
    exact (dataReceived_whole_frames buffered Hdec Hbytes N fuel s HN H1 Hf).
Qed.

End Properties.

(** * The claims on the simulated daemon *)

Section Instances.

Import Sim.

Local Abbreviation failed := (Sim.fresh false 0).
Local Abbreviation opened := (Sim.fresh true 0).

Lemma C1_start_sequence_witness :
  running_ (pimpl_ opened) = false
  /\ trace (run start opened) =
     [EvInitiateConnection 7; EvRunning true; EvConnect;
      EvCall "start" [QInt 7];
      EvCall "setInterval" [QInt 7; QInt 0];
      EvCall "setBufferInterval" [QInt 7; QUInt 0];
      EvCall "setBufferSize" [QInt 7; QUInt 1]]
  /\ trace (run start (run (setInterval 100) opened)) =
     [EvInitiateConnection 7; EvRunning true; EvConnect;
      EvCall "start" [QInt 7];
      EvCall "setInterval" [QInt 7; QInt 100];
      EvCall "setBufferInterval" [QInt 7; QUInt 0];
      EvCall "setBufferSize" [QInt 7; QUInt 1]].
Proof.
  split; [reflexivity|].
  destruct (C1_start_sequence opened eq_refl) as (Ht & _ & _ & Hv).
  split; [exact Ht|].
  destruct (Hv 100) as (_ & Ht' & _). exact Ht'.
Defined.

Lemma C3_local_error_precedence_witness :
  errorCode_ (pimpl_ failed) <> SNoError
  /\ let s' := run (reads [AInterval; ADescription; AErrorCodeInt; AErrorCode]) failed in
     errorCode s' = (SClientSocketError, s')
     /\ errorString s' = ("Socket connection failed.", s').
Proof.
  assert (H : errorCode_ (pimpl_ failed) <> SNoError)
    by (vm_compute; discriminate).
  split; [exact H|].
  destruct (C3_local_error_precedence failed) as (_ & _ & _ & Hl & _).
  exact (Hl [AInterval; ADescription; AErrorCodeInt; AErrorCode] H).
Defined.

Lemma C4_idle_start_stop_witness :
  running_ (pimpl_ failed) = false
  /\ stop failed =
     (QDBusReply_default,
      mkSession (Impl_new 7) (world failed) [EvInitiateConnection 7]).
Proof.
  split; [reflexivity|].
  destruct (C4_idle_start_stop failed) as (_ & Hstop & _).
  exact (Hstop eq_refl).
Defined.

Lemma C6_setDataRangeIndex_verifies_witness :
  at_ (ranges (world opened)) 1 = Some (0, 100, 5)
  /\ fst (setDataRangeIndex DataRange_eq 1 opened) = Some true.
Proof.
  split; [reflexivity|].
  destruct (C6_setDataRangeIndex_verifies DataRange_eq opened 1)
    as (_ & _ & Hiff & _).
  apply (proj2 Hiff). exists (0, 100, 5). split; reflexivity.
Defined.

Lemma C7_constructor_records_socket_error_witness :
  SClientSocketError <> SNoError
  /\ fst (initiateConnection 7 (daemon false 0)) = false
  /\ errorCode failed = (SClientSocketError, failed)
  /\ trace failed = [EvInitiateConnection 7].
Proof.
  assert (H : SClientSocketError <> SNoError) by (vm_compute; discriminate).
  assert (Hopen : fst (initiateConnection 7 (daemon false 0)) = false)
    by reflexivity.
  split; [exact H|]. split; [exact Hopen|].
  destruct (C7_constructor_records_socket_error
              (DataRange := DataRange) SClientSocketError 7 (daemon false 0)
              H Hopen)
    as (Hc & _ & Ht & _).
  split; [exact Hc|exact Ht].
Defined.

Lemma C8_drain_loop_witness :
  frames (world (fresh true 3)) = 3%nat
  /\ bytesAvailable (world (fresh true 3)) <> 0
  /\ dataReceived 3 (fresh true 3) =
     (Some tt,
      mkSession (Impl_new 7) (daemon true 0)
                [EvInitiateConnection 7; EvDataReceivedImpl;
                 EvDataReceivedImpl; EvDataReceivedImpl])
  /\ bytesAvailable (daemon true 0) = 0
  /\ dataReceived (Sock := SimBytes.socket) (Dec := SimBytes.decoder)
       3 (SimBytes.session 0 4) =
     (Some tt,
      mkSession (Impl_new 7) (SimBytes.mkSocket 0 4) [EvDataReceivedImpl]).
Proof.
  split; [reflexivity|].
  assert (Hnotified : bytesAvailable (world (fresh true 3)) <> 0)
    by (vm_compute; discriminate).
  split; [exact Hnotified|].
  assert (Hdec : forall (w : World) (n : nat),
             frames w = S n ->
             fst (dataReceivedImpl w) = true
             /\ frames (snd (dataReceivedImpl w)) = n).
  { intros w n H. simpl. rewrite H. simpl. split; reflexivity. }
  assert (Hbytes : forall w : World, bytesAvailable w = 0 <-> frames w = 0%nat).
  { intros w.
    change (frame_size * Z.of_nat (frames w) = 0 <-> frames w = 0%nat).
    unfold frame_size. lia. }
  destruct (C8_drain_loop 3 (fresh true 3)) as (_ & _ & Hwhole).
  destruct (Hwhole frames 3%nat Hdec Hbytes Hnotified eq_refl (le_n 3))
    as (Hrun & Hzero).
  split; [exact Hrun|]. split; [exact Hzero|].
  destruct (C8_drain_loop (Sock := SimBytes.socket) (Dec := SimBytes.decoder)
              3 (SimBytes.session 0 4)) as (Hstop & _).
  apply (Hstop 0%nat); [lia|].
  split; [intros j Hj; lia|left; reflexivity].
Defined.

Lemma C9_stop_keeps_standby_cache_witness :
  let s := run (setStandbyOverride true) (run start opened) in
  running_ (pimpl_ s) = true
  /\ standbyOverride_ (pimpl_ s) = true
  /\ standbyOverride_ (pimpl_ (run stop s)) = true
  /\ trace (run start (run stop s)) =
     trace (run stop s)
     ++ [EvRunning true; EvConnect; EvCall "start" [QInt 7];
         EvCall "setStandbyOverride" [QInt 7; QBool true];
         EvCall "setInterval" [QInt 7; QInt 0];
         EvCall "setBufferInterval" [QInt 7; QUInt 0];
         EvCall "setBufferSize" [QInt 7; QUInt 1]].
Proof.
  intros s. split; [reflexivity|]. split; [reflexivity|].
  destruct (C9_stop_keeps_standby_cache s eq_refl) as (Hkeep & _ & _ & _ & Hnext).
  split; [exact Hkeep|exact (Hnext eq_refl)].
Defined.

Lemma C10_index_precondition_witness :
  0 <= 1 < Z.of_nat (List.length (ranges (world opened)))
  /\ exists b, fst (setDataRangeIndex DataRange_eq 1 opened) = Some b.
Proof.
  assert (H : 0 <= 1 < Z.of_nat (List.length (ranges (world opened))))
    by (simpl; lia).
  split; [exact H|].
  destruct (C10_index_precondition DataRange_eq opened 1) as (Hin & _).
  exact (Hin H).
Defined.

(** C4 as stated fails: [stop()] on the session whose socket could not be
    opened (never started) changes the session, it clears the recorded
    error; so does [start()] on a running session that has an error
    recorded. *)
Lemma C4_counterexample :
  let s := failed in
  let r := run (setError SClientSocketError "Socket connection failed.")
               (run start opened) in
  (running_ (pimpl_ s) = false
   /\ errorCode_ (pimpl_ s) = SClientSocketError
   /\ errorCode_ (pimpl_ (run stop s)) = SNoError
   /\ run stop s <> s)
  /\ (running_ (pimpl_ r) = true
      /\ errorCode_ (pimpl_ r) = SClientSocketError
      /\ errorCode_ (pimpl_ (run start r)) = SNoError
      /\ run start r <> r).
Proof.
  vm_compute. repeat split; try discriminate.
Qed.

(** C5 as stated fails: [setInterval(100)] on the stopped session whose
    socket could not be opened leaves the recorded error in place, and so
    does [setBufferInterval(5)] on a running session. *)
Lemma C5_counterexample :
  let s := failed in
  let r := run (setError SClientSocketError "Socket connection failed.")
               (run start opened) in
  (running_ (pimpl_ s) = false
   /\ errorCode_ (pimpl_ s) = SClientSocketError
   /\ errorCode_ (pimpl_ (run (setInterval 100) s)) = SClientSocketError
   /\ errorCode_ (pimpl_ (run (setInterval 100) s)) <> SNoError)
  /\ (running_ (pimpl_ r) = true
      /\ errorCode_ (pimpl_ (run (setBufferInterval 5) r)) <> SNoError
      /\ errorCode_ (pimpl_ (run (setBufferSize 5) r)) <> SNoError).
Proof.
  vm_compute. repeat split; try discriminate.
Qed.


End Instances.

(** * The class as a whole *)

Section Protocol.

Context {DataRange W : Type}.
Context {Bus : QtDBus DataRange W} {Sock : SocketReader W} {Dec : FrameDecoder W}.
Context {Ranges : IntegerRanges DataRange W} {Life : Lifetime W}.

Variable DataRange_eq : DataRange -> DataRange -> bool.

Implicit Types (s : Session DataRange W) (p : Impl) (o : Operation DataRange).

Local Abbreviation deq := DataRange_eq.

Ltac functions :=
  unfold run, returned, start, stop, start_sid, stop_sid,
    setInterval, setBufferInterval, setBufferSize, setStandbyOverride,
    setInterval_sid, setBufferInterval_sid, setBufferSize_sid,
    setStandbyOverride_sid,
    interval, bufferInterval, bufferSize, standbyOverride,
    errorCode, errorString, errorCodeInt, description, id, type, sessionId,
    setDataRangeIndex, getAvailableDataRanges, getCurrentDataRange,
    requestDataRange, removeDataRangeRequest,
    getAvailableIntervals, getAvailableBufferIntervals,
    getAvailableBufferSizes, hwBuffering, release, destructor,
    call, propGet, clearError, setError, bind, pimpl, modify, emit, outside, ret;
  simpl.

Lemma run_bind {A B : Type} (c : Computation DataRange W A)
    (k : A -> Computation DataRange W B) s :
  run (bind c k) s = run (k (fst (c s))) (run c s).
Proof. unfold run, bind. destruct (c s); reflexivity. Qed.

Lemma session_eta s : mkSession (pimpl_ s) (world s) (trace s) = s.
Proof. destruct s; reflexivity. Qed.

Lemma start_when_running s :
  running_ (pimpl_ s) = true ->
  start s = (QDBusReply_default, mkSession (cleared (pimpl_ s)) (world s) (trace s)).
Proof. intros Hr. functions. rewrite Hr. reflexivity. Qed.

Lemma stop_when_stopped s :
  running_ (pimpl_ s) = false ->
  stop s = (QDBusReply_default, mkSession (cleared (pimpl_ s)) (world s) (trace s)).
Proof. intros Hr. functions. rewrite Hr. reflexivity. Qed.

Lemma dataReceived_frame (fuel : nat) :
  forall s,
    pimpl_ (run (dataReceived fuel) s) = pimpl_ s
    /\ exists k : nat,
         (k <= fuel)%nat
         /\ trace (run (dataReceived fuel) s) =
            trace s ++ repeat EvDataReceivedImpl k.
Proof.
  induction fuel as [|fuel IH]; intros s.
  - split; [reflexivity|]. exists 0%nat. split; [lia|].
    simpl. rewrite app_nil_r. reflexivity.
  - unfold run. rewrite dataReceived_step. simpl.
    destruct (continues (world s)).
    + destruct (IH (mkSession (pimpl_ s) (snd (dataReceivedImpl (world s)))
                              (trace s ++ [EvDataReceivedImpl])))
        as [Hp [k [Hk Ht]]].
      unfold run in Hp, Ht. split; [exact Hp|].
      exists (S k). split; [lia|].
      rewrite Ht. simpl. rewrite <- app_assoc. reflexivity.
    + split; [reflexivity|]. exists 1%nat. split; [lia|]. reflexivity.
Qed.

(** Every member function changes the private structure as [step] says,
    whatever the daemon and the socket do. *)
Lemma exec_pimpl o s : pimpl_ (run (exec deq o) s) = step o (pimpl_ s).
Proof.
  destruct o; simpl exec; simpl step;
    try (functions; destruct (running_ (pimpl_ s)) eqn:Hr; simpl;
         try destruct (standbyOverride_ (pimpl_ s)); reflexivity).
  - unfold returned. rewrite run_seq. simpl. apply read_pimpl.
  - rewrite run_bind. simpl. apply dataReceived_frame.
Qed.

Lemma execs_cons o (l : list (Operation DataRange)) s :
  execs deq (o :: l) s =
  if fst (exec deq o s) then execs deq l (run (exec deq o) s)
  else (false, run (exec deq o) s).
Proof.
  simpl execs. unfold bind, run.
  destruct (exec deq o s) as [[|] s']; reflexivity.
Qed.

(** A property of the private structure that every member function keeps
    holds after any run of a client. *)
Lemma execs_invariant (P : Impl -> Prop) :
  (forall o p, P p -> P (step o p)) ->
  forall (l : list (Operation DataRange)) s,
    P (pimpl_ s) -> P (pimpl_ (run (execs deq l) s)).
Proof.
  intros Hstep l. induction l as [|o l IH]; intros s Hs; [exact Hs|].
  unfold run. rewrite execs_cons.
  assert (H1 : P (pimpl_ (run (exec deq o) s)))
    by (rewrite exec_pimpl; apply Hstep; exact Hs).
  destruct (fst (exec deq o s)); [apply IH; exact H1|exact H1].
Qed.

(** When all the calls came back, the structure is the one [step] computes. *)
Lemma execs_pimpl (l : list (Operation DataRange)) :
  forall s,
    fst (execs deq l s) = true ->
    pimpl_ (run (execs deq l) s) = fold_left (fun p o => step o p) l (pimpl_ s).
Proof.
  induction l as [|o l IH]; intros s H; [reflexivity|].
  unfold run in *. rewrite execs_cons in *.
  destruct (fst (exec deq o s)); [|discriminate H].
  simpl. rewrite <- exec_pimpl. apply IH. exact H.
Qed.

(** ** What a client can rely on, whatever it calls *)

Lemma step_sessionId o p : sessionId_ (step o p) = sessionId_ p.
Proof. destruct o; simpl; try destruct (running_ p); reflexivity. Qed.

(** The session identifier given to the constructor is never changed:
    after any run of member functions the structure still holds it and
    [sessionId()] answers it, without any interaction. *)
Theorem sessionId_immutable (l : list (Operation DataRange)) s :
  let s' := run (execs deq l) s in
  sessionId_ (pimpl_ s') = sessionId_ (pimpl_ s)
  /\ sessionId s' = (sessionId_ (pimpl_ s), s').
Proof.
  intros s'.
  assert (H : sessionId_ (pimpl_ s') = sessionId_ (pimpl_ s)).
  { apply (execs_invariant (fun p => sessionId_ p = sessionId_ (pimpl_ s)));
      [|reflexivity].
    intros o p Hp. rewrite step_sessionId. exact Hp. }
  split; [exact H|]. functions. rewrite H. reflexivity.
Qed.

Lemma step_no_error o p :
  errorCode_ p = SNoError -> errorString_ p = "" ->
  errorCode_ (step o p) = SNoError /\ errorString_ (step o p) = "".
Proof.
  intros Hc Hs. destruct o; simpl; try destruct (running_ p); simpl; auto.
Qed.

(** No member function records a local error: on an object that has none
    recorded, none is recorded after any run of member functions, and
    [errorCode()] then reports what the daemon's [errorCodeInt] property
    holds. *)
Theorem no_local_error_arises (l : list (Operation DataRange)) s :
  errorCode_ (pimpl_ s) = SNoError ->
  errorString_ (pimpl_ s) = "" ->
  let s' := run (execs deq l) s in
  errorCode_ (pimpl_ s') = SNoError
  /\ errorString_ (pimpl_ s') = ""
  /\ fst (errorCode s') =
     qvariant_cast_int (fst (internalPropGet "errorCodeInt" (world s'))).
Proof.
  intros Hc Hs s'.
  assert (H : errorCode_ (pimpl_ s') = SNoError /\ errorString_ (pimpl_ s') = "").
  { apply (execs_invariant
             (fun p => errorCode_ p = SNoError /\ errorString_ p = ""));
      [|split; assumption].
    intros o p [H1 H2]. apply step_no_error; assumption. }
  destruct H as [H1 H2]. split; [exact H1|]. split; [exact H2|].
  functions. rewrite H1. reflexivity.
Qed.

(** The private structure never depends on the daemon or the socket: two
    objects with the same structure, facing different worlds, still have the
    same structure after the same calls, provided the calls came back. *)
Theorem structure_independent_of_daemon (l : list (Operation DataRange)) s1 s2 :
  pimpl_ s1 = pimpl_ s2 ->
  fst (execs deq l s1) = true ->
  fst (execs deq l s2) = true ->
  pimpl_ (run (execs deq l) s1) = pimpl_ (run (execs deq l) s2).
Proof.
  intros Hp H1 H2.
  rewrite (execs_pimpl l s1 H1), (execs_pimpl l s2 H2), Hp. reflexivity.
Qed.

Lemma fold_written_cache (l : list (Operation DataRange)) :
  forall p q,
    interval_ p = interval_ q ->
    bufferInterval_ p = bufferInterval_ q ->
    bufferSize_ p = bufferSize_ q ->
    standbyOverride_ p = standbyOverride_ q ->
    let p' := fold_left (fun p o => step o p) l p in
    let q' := fold_left (fun p o => written o p) l q in
    interval_ p' = interval_ q'
    /\ bufferInterval_ p' = bufferInterval_ q'
    /\ bufferSize_ p' = bufferSize_ q'
    /\ standbyOverride_ p' = standbyOverride_ q'.
Proof.
  induction l as [|o l IH]; intros p q H1 H2 H3 H4; simpl; [auto|].
  apply IH; destruct o; simpl; try destruct (running_ p); simpl; auto.
Qed.

(** The cached configuration holds what the property setters were given
    last: after a run of member functions that all came back, the cached
    interval, buffer interval, buffer size and standby override are those
    obtained by replaying the calls of [setInterval(value)],
    [setBufferInterval(value)], [setBufferSize(value)] and
    [setStandbyOverride(value)] alone; [start], [stop], the calls that name
    the session and the replies of the daemon never alter them. *)
Theorem cache_holds_last_write (l : list (Operation DataRange)) s :
  fst (execs deq l s) = true ->
  let p' := pimpl_ (run (execs deq l) s) in
  let q := fold_left (fun p o => written o p) l (pimpl_ s) in
  interval_ p' = interval_ q
  /\ bufferInterval_ p' = bufferInterval_ q
  /\ bufferSize_ p' = bufferSize_ q
  /\ standbyOverride_ p' = standbyOverride_ q.
Proof.
  intros H p' q. subst p'. rewrite (execs_pimpl l s H).
  apply fold_written_cache; reflexivity.
Qed.

Lemma lifecycle_app (t u : list (Event DataRange)) :
  lifecycle (t ++ u) = lifecycle t ++ lifecycle u.
Proof.
  induction t as [|e t IH]; [reflexivity|].
  destruct e; simpl; try exact IH.
  destruct (String.eqb method "start"); [simpl; now rewrite IH|].
  destruct (String.eqb method "stop"); [simpl; now rewrite IH|exact IH].
Qed.

Lemma lifecycle_decoder (k : nat) :
  lifecycle (repeat (@EvDataReceivedImpl DataRange) k) = [].
Proof. induction k as [|k IH]; [reflexivity|exact IH]. Qed.

Lemma exec_lifecycle o s :
  lifecycle (trace (run (exec deq o) s)) =
  lifecycle (trace s)
  ++ match o with
     | OStart | OStart_sid _ => if running_ (pimpl_ s) then [] else [true]
     | OStop | OStop_sid _ => if running_ (pimpl_ s) then [false] else []
     | _ => []
     end.
Proof.
  destruct o as [ | | | | | | | | | | | | | | | | | | | | | a | fuel | ];
    simpl exec;
    try (functions; destruct (running_ (pimpl_ s)) eqn:Hr; simpl;
         try destruct (standbyOverride_ (pimpl_ s)); simpl;
         repeat rewrite lifecycle_app; simpl; rewrite ?app_nil_r;
         reflexivity).
  - destruct a; unfold read; functions;
      try destruct (running_ (pimpl_ s));
      try destruct (errorCode_ (pimpl_ s) =? SNoError); simpl;
      repeat rewrite lifecycle_app; simpl; rewrite ?app_nil_r; reflexivity.
  - rewrite run_bind. simpl.
    destruct (dataReceived_frame fuel s) as [_ [k [_ Ht]]].
    change (run (ret (match fst (dataReceived fuel s) with
                      | Some _ => true | None => false end))
                (run (dataReceived fuel) s))
      with (run (dataReceived fuel) s).
    rewrite Ht, lifecycle_app, lifecycle_decoder. reflexivity.
Qed.

Lemma replay_app (l l' : list bool) :
  forall r : bool,
    replay r (l ++ l') =
    match replay r l with
    | Some r' => replay r' l'
    | None => None
    end.
Proof.
  induction l as [|b l IH]; intros r; [reflexivity|].
  simpl. destruct (Bool.eqb b r); [reflexivity|apply IH].
Qed.

Lemma exec_in_sequence o s :
  replay false (lifecycle (trace s)) = Some (running_ (pimpl_ s)) ->
  replay false (lifecycle (trace (run (exec deq o) s))) =
  Some (running_ (pimpl_ (run (exec deq o) s))).
Proof.
  intros H. rewrite exec_lifecycle, exec_pimpl, replay_app, H.
  destruct o; simpl; destruct (running_ (pimpl_ s)) eqn:Hr; simpl;
    rewrite ?Hr; reflexivity.
Qed.

Lemma execs_in_sequence (l : list (Operation DataRange)) :
  forall s,
    replay false (lifecycle (trace s)) = Some (running_ (pimpl_ s)) ->
    replay false (lifecycle (trace (run (execs deq l) s))) =
    Some (running_ (pimpl_ (run (execs deq l) s))).
Proof.
  induction l as [|o l IH]; intros s H; [exact H|].
  unfold run. rewrite execs_cons.
  pose proof (exec_in_sequence o s H) as H1.
  destruct (fst (exec deq o s)); [apply IH; exact H1|exact H1].
Qed.

(** The daemon sees [start] and [stop] calls in strict alternation,
    beginning with a [start], whatever the client calls on an object since
    its construction (repeated [start()]s and [stop()]s included), and
    [running_] is true exactly when the last of these calls was a [start]. *)
Theorem start_stop_alternate
    (SClientSocketError : SensorError) (sid : Z) (w : W)
    (l : list (Operation DataRange)) :
  let s' := run (execs deq l)
                (AbstractSensorChannelInterface SClientSocketError sid w) in
  replay false (lifecycle (trace s')) = Some (running_ (pimpl_ s')).
Proof.
  intros s'. apply execs_in_sequence.
  unfold AbstractSensorChannelInterface. functions.
  destruct (fst (initiateConnection sid w)); reflexivity.
Qed.

(** ** How the member functions compose *)

Lemma stop_restores p :
  running_ p = false ->
  set_running false (cleared (set_running true (cleared p))) = cleared p.
Proof. destruct p; simpl; intros ->; reflexivity. Qed.

(** [start()] and [stop()] are idempotent: a second [start()] right after
    a [start()], or a second [stop()] right after a [stop()], changes nothing
    at all: no field, no call, no change of the outside. *)
Theorem start_stop_idempotent s :
  run start (run start s) = run start s
  /\ run stop (run stop s) = run stop s.
Proof.
  split.
  - assert (Hr : running_ (pimpl_ (run start s)) = true).
    { destruct (running_ (pimpl_ s)) eqn:Hr.
      - unfold run. rewrite (start_when_running s Hr). exact Hr.
      - rewrite (start_pimpl s Hr). reflexivity. }
    assert (Hc : cleared (pimpl_ (run start s)) = pimpl_ (run start s)).
    { destruct (running_ (pimpl_ s)) eqn:Hr'.
      - unfold run. rewrite (start_when_running s Hr'). reflexivity.
      - rewrite (start_pimpl s Hr'). reflexivity. }
    unfold run at 1. rewrite (start_when_running (run start s) Hr).
    simpl. rewrite Hc. apply session_eta.
  - assert (Hr : running_ (pimpl_ (run stop s)) = false).
    { destruct (running_ (pimpl_ s)) eqn:Hr.
      - rewrite (proj1 (stop_running s Hr)). reflexivity.
      - unfold run. rewrite (stop_when_stopped s Hr). exact Hr. }
    assert (Hc : cleared (pimpl_ (run stop s)) = pimpl_ (run stop s)).
    { destruct (running_ (pimpl_ s)) eqn:Hr'.
      - rewrite (proj1 (stop_running s Hr')). reflexivity.
      - unfold run. rewrite (stop_when_stopped s Hr'). reflexivity. }
    unfold run at 1. rewrite (stop_when_stopped (run stop s) Hr).
    simpl. rewrite Hc. apply session_eta.
Qed.

(** A [start()] followed by a [stop()] on a stopped object leaves the
    private structure as it was, up to the local error, which is cleared: the
    cached interval survives the [setInterval(sessionId, 0)] that [stop()]
    sends, and the cached standby override the
    [setStandbyOverride(sessionId, false)].  The next [start()] therefore
    sends the daemon the very same calls as the first one. *)
Theorem stop_after_start_restores s :
  running_ (pimpl_ s) = false ->
  let p := pimpl_ s in
  let sid := sessionId_ p in
  let starting :=
    [EvRunning true; EvConnect; EvCall "start" [QInt sid]]
    ++ (if standbyOverride_ p
        then [EvCall "setStandbyOverride" [QInt sid; QBool true]] else [])
    ++ [EvCall "setInterval" [QInt sid; QInt (interval_ p)];
        EvCall "setBufferInterval" [QInt sid; QUInt (bufferInterval_ p)];
        EvCall "setBufferSize" [QInt sid; QUInt (bufferSize_ p)]] in
  let stopping :=
    [EvRunning false; EvDisconnect;
     EvCall "setStandbyOverride" [QInt sid; QBool false];
     EvCall "setInterval" [QInt sid; QInt 0];
     EvCall "stop" [QInt sid]] in
  let s2 := run stop (run start s) in
  pimpl_ s2 = cleared p
  /\ trace s2 = (trace s ++ starting) ++ stopping
  /\ trace (run start s2) = trace s2 ++ starting.
Proof.
  intros Hr p sid starting stopping s2.
  assert (Hr1 : running_ (pimpl_ (run start s)) = true)
    by (rewrite (start_pimpl s Hr); reflexivity).
  destruct (stop_running (run start s) Hr1) as [Hp Ht].
  assert (Hp2 : pimpl_ s2 = cleared p).
  { subst s2. rewrite Hp, (start_pimpl s Hr). apply stop_restores. exact Hr. }
  split; [exact Hp2|]. split.
  - subst s2. rewrite Ht, (start_trace s Hr), (start_pimpl s Hr). reflexivity.
  - rewrite start_trace by (rewrite Hp2; exact Hr). rewrite Hp2. reflexivity.
Qed.

(** A buffer interval or buffer size set while the object is running is
    stored and nothing else: no call is issued, the outside is not touched
    and the local error is not cleared.  The value reaches the daemon with
    the [start()] that follows the next [stop()]. *)
Theorem buffer_settings_deferred_while_running s (v : Z) :
  running_ (pimpl_ s) = true ->
  let p := pimpl_ s in
  let sid := sessionId_ p in
  let standby :=
    if standbyOverride_ p
    then [EvCall "setStandbyOverride" [QInt sid; QBool true]] else [] in
  let s1 := run (setBufferInterval v) s in
  let s2 := run (setBufferSize v) s in
  s1 = mkSession (set_bufferInterval v p) (world s) (trace s)
  /\ s2 = mkSession (set_bufferSize v p) (world s) (trace s)
  /\ trace (run start (run stop s1)) =
     trace (run stop s1)
     ++ [EvRunning true; EvConnect; EvCall "start" [QInt sid]]
     ++ standby
     ++ [EvCall "setInterval" [QInt sid; QInt (interval_ p)];
         EvCall "setBufferInterval" [QInt sid; QUInt v];
         EvCall "setBufferSize" [QInt sid; QUInt (bufferSize_ p)]]
  /\ trace (run start (run stop s2)) =
     trace (run stop s2)
     ++ [EvRunning true; EvConnect; EvCall "start" [QInt sid]]
     ++ standby
     ++ [EvCall "setInterval" [QInt sid; QInt (interval_ p)];
         EvCall "setBufferInterval" [QInt sid; QUInt (bufferInterval_ p)];
         EvCall "setBufferSize" [QInt sid; QUInt v]].
Proof.
  intros Hr p sid standby s1 s2.
  assert (E1 : s1 = mkSession (set_bufferInterval v p) (world s) (trace s))
    by (subst s1; functions; rewrite Hr; reflexivity).
  assert (E2 : s2 = mkSession (set_bufferSize v p) (world s) (trace s))
    by (subst s2; functions; rewrite Hr; reflexivity).
  split; [exact E1|]. split; [exact E2|]. split.
  - assert (R : running_ (pimpl_ s1) = true) by (rewrite E1; exact Hr).
    destruct (stop_running s1 R) as [Hp _].
    rewrite start_trace by (rewrite Hp; reflexivity).
    rewrite Hp, E1. reflexivity.
  - assert (R : running_ (pimpl_ s2) = true) by (rewrite E2; exact Hr).
    destruct (stop_running s2 R) as [Hp _].
    rewrite start_trace by (rewrite Hp; reflexivity).
    rewrite Hp, E2. reflexivity.
Qed.

(** On a stopped object each getter answers what its setter was given
    last, and asks the daemon nothing. *)
Theorem getters_answer_last_set_while_stopped s (v : Z) (b : bool) :
  running_ (pimpl_ s) = false ->
  interval (run (setInterval v) s) = (v, run (setInterval v) s)
  /\ bufferInterval (run (setBufferInterval v) s) =
     (v, run (setBufferInterval v) s)
  /\ bufferSize (run (setBufferSize v) s) = (v, run (setBufferSize v) s)
  /\ standbyOverride (run (setStandbyOverride b) s) =
     (b, run (setStandbyOverride b) s).
Proof.
  intros Hr. functions. rewrite Hr. simpl. rewrite Hr. repeat split.
Qed.

Lemma errorCode_remote s :
  errorCode_ (pimpl_ s) = SNoError ->
  fst (errorCode s) =
  qvariant_cast_int (fst (internalPropGet "errorCodeInt" (world s))).
Proof. intros H. functions. rewrite H. reflexivity. Qed.

(** [start()], [stop()] (also when they have nothing to do) and the
    data-range calls [getCurrentDataRange], [requestDataRange],
    [removeDataRangeRequest], [setDataRangeIndex] discard a recorded local
    error: right after any of them [errorCode()] reports the daemon's
    [errorCodeInt], not what was recorded. *)
Theorem control_calls_discard_local_error s (r : DataRange) (i : Z) :
  let reports_daemon (s' : Session DataRange W) :=
    errorCode_ (pimpl_ s') = SNoError
    /\ errorString_ (pimpl_ s') = ""
    /\ fst (errorCode s') =
       qvariant_cast_int (fst (internalPropGet "errorCodeInt" (world s'))) in
  reports_daemon (run start s)
  /\ reports_daemon (run stop s)
  /\ reports_daemon (run getCurrentDataRange s)
  /\ reports_daemon (run (requestDataRange r) s)
  /\ reports_daemon (run removeDataRangeRequest s)
  /\ reports_daemon (run (setDataRangeIndex deq i) s).
Proof.
  intros reports_daemon.
  assert (H : forall o : Operation DataRange,
             errorCode_ (step o (pimpl_ s)) = SNoError ->
             errorString_ (step o (pimpl_ s)) = "" ->
             reports_daemon (run (exec deq o) s)).
  { intros o Hc Hs. unfold reports_daemon. rewrite exec_pimpl.
    split; [exact Hc|]. split; [exact Hs|].
    apply errorCode_remote. rewrite exec_pimpl. exact Hc. }
  assert (R : forall (A : Type) (c : Computation DataRange W A),
             run c s = run (returned c) s)
    by (intros A c; unfold returned; rewrite run_seq; reflexivity).
  assert (C : forall p, errorCode_ (cleared p) = SNoError
                        /\ errorString_ (cleared p) = "")
    by (intros p; split; reflexivity).
  split; [|split; [|split; [|split; [|split]]]].
  - rewrite R. apply (H OStart); simpl;
      destruct (running_ (pimpl_ s)); reflexivity.
  - rewrite R. apply (H OStop); simpl;
      destruct (running_ (pimpl_ s)); reflexivity.
  - rewrite R. apply (H OGetCurrentDataRange); reflexivity.
  - rewrite R. apply (H (ORequestDataRange r)); reflexivity.
  - rewrite R. apply (H ORemoveDataRangeRequest); reflexivity.
  - replace (run (setDataRangeIndex deq i) s)
      with (run (exec deq (OSetDataRangeIndex i)) s)
      by (simpl exec; rewrite run_bind; reflexivity).
    apply (H (OSetDataRangeIndex i)); reflexivity.
Qed.

(** ** Queries, construction and destruction *)

Lemma calls_of_app (m : string) (t u : list (Event DataRange)) :
  calls_of m (t ++ u) = calls_of m t ++ calls_of m u.
Proof.
  induction t as [|e t IH]; [reflexivity|].
  destruct e; simpl; try exact IH.
  destruct (String.eqb m method); simpl; now rewrite IH.
Qed.

(** The capability queries [getAvailableDataRanges],
    [getAvailableIntervals], [getAvailableBufferIntervals],
    [getAvailableBufferSizes] and [hwBuffering] issue one call each, without
    arguments (not even the session identifier), and do not touch the
    private structure: unlike the other calls they leave a recorded local
    error in place, and [errorCode()] still reports it afterwards. *)
Theorem capability_queries_keep_local_error s :
  let asks {A : Type} (name : string) (c : Computation DataRange W A) :=
    pimpl_ (run c s) = pimpl_ s
    /\ trace (run c s) = trace s ++ [EvCall name []]
    /\ world (run c s) = snd (callWithArgumentList name [] (world s))
    /\ (errorCode_ (pimpl_ s) <> SNoError ->
        fst (errorCode (run c s)) = errorCode_ (pimpl_ s)) in
  asks "getAvailableDataRanges" getAvailableDataRanges
  /\ asks "getAvailableIntervals" getAvailableIntervals
  /\ asks "getAvailableBufferIntervals" getAvailableBufferIntervals
  /\ asks "getAvailableBufferSizes" getAvailableBufferSizes
  /\ asks "hwBuffering" hwBuffering.
Proof.
  intros asks. subst asks. destruct s as [p w t]. functions.
  repeat split; intros Hc; apply Z.eqb_neq in Hc; rewrite Hc; reflexivity.
Qed.

(** The constructor leaves a stopped object with interval 0, buffer
    interval 0, buffer size 1 and no standby override, which the getters
    answer without asking the daemon; it opens the socket and issues no call
    on the bus; it records an error exactly when the socket did not open. *)
Theorem constructor_defaults (SClientSocketError : SensorError) (sid : Z) (w : W) :
  let s := AbstractSensorChannelInterface (DataRange := DataRange)
             SClientSocketError sid w in
  trace s = [EvInitiateConnection sid]
  /\ world s = snd (initiateConnection sid w)
  /\ errorCode_ (pimpl_ s) =
     (if fst (initiateConnection sid w) then SNoError else SClientSocketError)
  /\ running_ (pimpl_ s) = false
  /\ sessionId s = (sid, s)
  /\ interval s = (0, s)
  /\ bufferInterval s = (0, s)
  /\ bufferSize s = (1, s)
  /\ standbyOverride s = (false, s).
Proof.
  intros s. subst s. unfold AbstractSensorChannelInterface. functions.
  destruct (fst (initiateConnection sid w)); simpl; repeat split.
Qed.

(** [release()] asks the daemon for the [id] property and hands it, with
    the session identifier, to the registry; it touches nothing in the
    private structure.  The destructor releases exactly when the interface is
    valid, then drops the socket connection, recording an error exactly when
    that fails.  It issues no call on the interface: a running session is not
    stopped, and [running_] and the cached configuration are as they were. *)
Theorem destructor_releases_without_stopping
    (SClientSocketError : SensorError) s :
  let p := pimpl_ s in
  let got := internalPropGet "id" (world s) in
  let released :=
    releaseInterface (qvariant_cast_QString (fst got)) (sessionId_ p) (snd got) in
  let w1 := if interface_isValid (world s) then snd released else world s in
  let s' := run (destructor SClientSocketError) s in
  release s =
    (fst released, mkSession p (snd released) (trace s ++ [EvPropGet "id"]))
  /\ trace s' =
     trace s ++ (if interface_isValid (world s) then [EvPropGet "id"] else [])
  /\ (forall m : string, calls_of m (trace s') = calls_of m (trace s))
  /\ world s' = snd (dropConnection w1)
  /\ pimpl_ s' =
     (if fst (dropConnection w1) then p
      else set_error SClientSocketError "Socket disconnect failed." p)
  /\ running_ (pimpl_ s') = running_ p.
Proof.
  intros p got released w1 s'. subst p got released w1 s'.
  destruct s as [p w t]. functions.
  destruct (interface_isValid w); simpl.
  - destruct (fst (dropConnection
                     (snd (releaseInterface
                             (qvariant_cast_QString (fst (internalPropGet "id" w)))
                             (sessionId_ p) (snd (internalPropGet "id" w))))));
      simpl; repeat split; intros m; rewrite calls_of_app, app_nil_r;
      reflexivity.
  - destruct (fst (dropConnection w)); simpl; rewrite app_nil_r;
      repeat split.
Qed.

(** ** More on the drain loop *)

Lemma decoded_succ (k : nat) :
  forall w : W, decoded (S k) w = snd (dataReceivedImpl (decoded k w)).
Proof.
  induction k as [|k IH]; intros w; [reflexivity|].
  change (decoded (S (S k)) w) with (decoded (S k) (snd (dataReceivedImpl w))).
  rewrite IH. reflexivity.
Qed.

Lemma decoded_consumed (buffered : W -> nat) :
  (forall (w : W) (n : nat),
      buffered w = S n ->
      fst (dataReceivedImpl w) = true
      /\ buffered (snd (dataReceivedImpl w)) = n) ->
  forall (j : nat) (w : W) (n : nat),
    buffered w = (j + n)%nat -> buffered (decoded j w) = n.
Proof.
  intros Hdec j. induction j as [|j IH]; intros w n H; [exact H|].
  simpl. apply IH. apply (Hdec w (j + n)%nat). exact H.
Qed.

(** With [N] whole frames buffered followed by the beginning of another
    one, the loop runs the decoder [N + 1] times: the last run finds no whole
    frame and the loop returns with the partial bytes left on the socket. *)
Theorem drain_with_trailing_partial_frame
    (buffered : W -> nat) (N fuel : nat) s :
  (forall (w : W) (n : nat),
      buffered w = S n ->
      fst (dataReceivedImpl w) = true
      /\ buffered (snd (dataReceivedImpl w)) = n) ->
  (forall w : W, buffered w = 0%nat -> fst (dataReceivedImpl w) = false) ->
  buffered (world s) = N ->
  (forall j : nat, (1 <= j <= N)%nat ->
                   bytesAvailable (decoded j (world s)) <> 0) ->
  (N < fuel)%nat ->
  dataReceived fuel s =
  (Some tt, mkSession (pimpl_ s) (decoded (S N) (world s))
                      (trace s ++ repeat EvDataReceivedImpl (S N)))
  /\ fst (dataReceivedImpl (decoded N (world s))) = false.
Proof.
  intros Hdec Hwait HN Hrest Hf.
  assert (Hlast : fst (dataReceivedImpl (decoded N (world s))) = false).
  { apply Hwait. apply (decoded_consumed buffered Hdec). rewrite HN. lia. }
  split; [|exact Hlast].
  apply dataReceived_stops; [exact Hf| |].
  - intros j Hj. unfold continues.
    destruct (Hdec (decoded j (world s)) (N - j - 1)%nat) as [Ht _].
    { apply (decoded_consumed buffered Hdec). rewrite HN. lia. }
    rewrite Ht. simpl. rewrite <- decoded_succ.
    apply negb_true_iff. apply Z.eqb_neq. apply (Hrest (S j)). lia.
  - unfold continues. rewrite Hlast. reflexivity.
Qed.

Lemma dataReceived_first_failure (k : nat) :
  forall s,
    continues (decoded k (world s)) = false ->
    fst (dataReceived (S k) s) = Some tt.
Proof.
  induction k as [|k IH]; intros s H; rewrite dataReceived_step; simpl.
  - simpl in H. rewrite H. reflexivity.
  - destruct (continues (world s)); [|reflexivity].
    apply IH. exact H.
Qed.

(** The loop returns if and only if some iteration finds the decoder
    reporting no frame or the socket empty: a decoder that reports a frame
    while bytes remain, for ever, keeps the loop from returning.  Returning
    or not, the loop never touches the private structure and issues nothing
    but runs of the decoder. *)
Theorem drain_returns_iff_condition_fails s :
  ((exists fuel : nat, fst (dataReceived fuel s) = Some tt) <->
   (exists k : nat, continues (decoded k (world s)) = false))
  /\ ((forall k : nat, continues (decoded k (world s)) = true) ->
      forall fuel : nat, fst (dataReceived fuel s) = None)
  /\ (forall fuel : nat,
        pimpl_ (run (dataReceived fuel) s) = pimpl_ s
        /\ exists k : nat,
             (k <= fuel)%nat
             /\ trace (run (dataReceived fuel) s) =
                trace s ++ repeat EvDataReceivedImpl k).
Proof.
  assert (Hret : forall fuel : nat,
             fst (dataReceived fuel s) = Some tt ->
             exists k : nat, continues (decoded k (world s)) = false).
  { intros fuel H.
    destruct (dataReceived fuel s) as [r s'] eqn:E. simpl in H. subst r.
    destruct (dataReceived_returned fuel s s' E) as [k [_ [_ [Hk _]]]].
    exists k. exact Hk. }
  split; [split|split].
  - intros [fuel H]. exact (Hret fuel H).
  - intros [k H]. exists (S k). apply dataReceived_first_failure. exact H.
  - intros Hall fuel.
    destruct (fst (dataReceived fuel s)) as [[]|] eqn:E; [|reflexivity].
    destruct (Hret fuel E) as [k Hk]. rewrite Hall in Hk. discriminate Hk.
  - intros fuel. apply dataReceived_frame.
Qed.

End Protocol.

(** * The class as a whole, on the simulated daemon *)

Section ProtocolInstances.

Import Sim.

Local Abbreviation failed := (Sim.fresh false 0).
Local Abbreviation opened := (Sim.fresh true 0).

(** A client that configures, starts, queries, selects a data range, stops
    and drains. *)
Definition visit : list (Operation DataRange) :=
  [OSetInterval 100; OStart; OSetBufferSize 5; OGetAvailableDataRanges;
   OSetDataRangeIndex 1; OStop; ODataReceived 5; ORead AInterval;
   OSetStandbyOverride true].

Lemma no_local_error_arises_witness :
  errorCode_ (pimpl_ opened) = SNoError
  /\ errorString_ (pimpl_ opened) = ""
  /\ errorCode_ (pimpl_ (run (execs DataRange_eq visit) opened)) = SNoError.
Proof.
  split; [reflexivity|]. split; [reflexivity|].
  exact (proj1 (no_local_error_arises DataRange_eq visit opened
                  eq_refl eq_refl)).
Defined.

Lemma structure_independent_of_daemon_witness :
  pimpl_ opened = pimpl_ (fresh true 3)
  /\ fst (execs DataRange_eq visit opened) = true
  /\ fst (execs DataRange_eq visit (fresh true 3)) = true
  /\ pimpl_ (run (execs DataRange_eq visit) opened) =
     pimpl_ (run (execs DataRange_eq visit) (fresh true 3)).
Proof.
  assert (Hp : pimpl_ opened = pimpl_ (fresh true 3)) by reflexivity.
  assert (H1 : fst (execs DataRange_eq visit opened) = true)
    by (vm_compute; reflexivity).
  assert (H2 : fst (execs DataRange_eq visit (fresh true 3)) = true)
    by (vm_compute; reflexivity).
  split; [exact Hp|]. split; [exact H1|]. split; [exact H2|].
  exact (structure_independent_of_daemon DataRange_eq visit opened
           (fresh true 3) Hp H1 H2).
Defined.

Lemma cache_holds_last_write_witness :
  fst (execs DataRange_eq visit opened) = true
  /\ let p' := pimpl_ (run (execs DataRange_eq visit) opened) in
     interval_ p' = 100 /\ bufferInterval_ p' = 0
     /\ bufferSize_ p' = 5 /\ standbyOverride_ p' = true.
Proof.
  assert (H : fst (execs DataRange_eq visit opened) = true)
    by (vm_compute; reflexivity).
  split; [exact H|].
  pose proof (cache_holds_last_write DataRange_eq visit opened H) as C.
  vm_compute in C |- *. exact C.
Defined.

Lemma stop_after_start_restores_witness :
  running_ (pimpl_ failed) = false
  /\ pimpl_ (run stop (run start failed)) = Impl_new 7.
Proof.
  split; [reflexivity|].
  exact (proj1 (stop_after_start_restores failed eq_refl)).
Defined.

Lemma buffer_settings_deferred_while_running_witness :
  running_ (pimpl_ (run start opened)) = true
  /\ calls_of "setBufferInterval"
       (trace (run start
                 (run stop (run (setBufferInterval 20) (run start opened))))) =
     [[QInt 7; QUInt 0]; [QInt 7; QUInt 20]].
Proof.
  assert (Hr : running_ (pimpl_ (run start opened)) = true)
    by (vm_compute; reflexivity).
  split; [exact Hr|].
  destruct (buffer_settings_deferred_while_running (run start opened) 20 Hr)
    as (_ & _ & Ht & _).
  rewrite Ht. vm_compute. reflexivity.
Defined.

Lemma getters_answer_last_set_while_stopped_witness :
  running_ (pimpl_ opened) = false
  /\ fst (interval (run (setInterval 100) opened)) = 100
  /\ fst (bufferSize (run (setBufferSize 5) opened)) = 5.
Proof.
  split; [reflexivity|].
  destruct (getters_answer_last_set_while_stopped opened 100 true eq_refl)
    as (Hi & _ & _ & _).
  destruct (getters_answer_last_set_while_stopped opened 5 true eq_refl)
    as (_ & _ & Hs & _).
  split; [rewrite Hi|rewrite Hs]; reflexivity.
Defined.

Lemma capability_queries_keep_local_error_witness :
  errorCode_ (pimpl_ failed) <> SNoError
  /\ fst (errorCode (run getAvailableDataRanges failed)) = SClientSocketError
  /\ fst (errorCode (run hwBuffering failed)) = SClientSocketError.
Proof.
  assert (H : errorCode_ (pimpl_ failed) <> SNoError)
    by (vm_compute; discriminate).
  split; [exact H|].
  destruct (capability_queries_keep_local_error failed)
    as ((_ & _ & _ & Hd) & _ & _ & _ & (_ & _ & _ & Hh)).
  split; [exact (Hd H)|exact (Hh H)].
Defined.

Lemma drain_returns_iff_condition_fails_witness :
  continues (decoded 2 (world (fresh true 3))) = false
  /\ exists fuel : nat, fst (dataReceived fuel (fresh true 3)) = Some tt.
Proof.
  assert (H : continues (decoded 2 (world (fresh true 3))) = false)
    by reflexivity.
  split; [exact H|].
  destruct (drain_returns_iff_condition_fails (fresh true 3)) as (Hiff & _).
  apply (proj2 Hiff). exists 2%nat. exact H.
Defined.

End ProtocolInstances.

Section PartialFrames.

Import SimBytes.

Lemma drain_with_trailing_partial_frame_witness :
  SimBytes.whole (world (SimBytes.session 2 4)) = 2%nat
  /\ dataReceived 3 (SimBytes.session 2 4) =
     (Some tt,
      mkSession (Impl_new 7) (SimBytes.mkSocket 0 4)
                [EvDataReceivedImpl; EvDataReceivedImpl; EvDataReceivedImpl])
  /\ bytesAvailable (SimBytes.mkSocket 0 4) = 4.
Proof.
  split; [reflexivity|]. split; [|reflexivity].
  assert (Hdec : forall (w : SimBytes.Socket) (n : nat),
             SimBytes.whole w = S n ->
             fst (dataReceivedImpl w) = true
             /\ SimBytes.whole (snd (dataReceivedImpl w)) = n).
  { intros w n H. simpl. rewrite H. simpl. split; reflexivity. }
  assert (Hwait : forall w : SimBytes.Socket,
             SimBytes.whole w = 0%nat -> fst (dataReceivedImpl w) = false).
  { intros w H. simpl. rewrite H. reflexivity. }
  assert (Hrest : forall j : nat,
             (1 <= j <= 2)%nat ->
             bytesAvailable (decoded j (world (SimBytes.session 2 4))) <> 0).
  { intros j Hj. destruct j as [|[|[|j]]]; [lia| | |lia];
      vm_compute; discriminate. }
  exact (proj1 (drain_with_trailing_partial_frame
                  (DataRange := unit) SimBytes.whole 2 3
                  (SimBytes.session 2 4) Hdec Hwait eq_refl Hrest
                  (le_n 3))).
Defined.

End PartialFrames.
